(** * TaskAPI: the Task entity, its repository (app/crud.py) and the PUT
    endpoint (app/main.py), embedded over an explicit database and clock.

    Timestamps are integers (microseconds on the UTC time line, the
    resolution of Python's [datetime]).  The wall clock is an oracle: the
    n-th call of [datetime.now(UTC)] made by the process returns
    [clock w n].  Nothing in the program constrains the readings, so
    every assumption on them is a visible hypothesis of a theorem. *)

From stdpp Require Import base option list strings numbers sorting pretty.

Open Scope Z_scope.

(** ** app/models.py *)

Module Task.
Record t := new {
  id : option Z;
  title : string;
  description : option string;
  status : string;
  created_at : Z;
  updated_at : Z
}.

(** Attribute assignments [task.title = v] and the like. *)
Definition set_id (v : option Z) (x : t) : t :=
  new v (title x) (description x) (status x) (created_at x) (updated_at x).
Definition set_title (v : string) (x : t) : t :=
  new (id x) v (description x) (status x) (created_at x) (updated_at x).
Definition set_description (v : option string) (x : t) : t :=
  new (id x) (title x) v (status x) (created_at x) (updated_at x).
Definition set_status (v : string) (x : t) : t :=
  new (id x) (title x) (description x) v (created_at x) (updated_at x).
Definition set_updated_at (v : Z) (x : t) : t :=
  new (id x) (title x) (description x) (status x) (created_at x) v.
End Task.

Abbreviation Task := Task.t.

(** ** The world the program runs in *)

(** Modelled from the spec: the storage behind app/database.py (the
    engine and the creation of the table are not among the sources).
    The task table is its rows in the order a scan returns them
    ("storage-defined order, stable by id") together with the generator
    of primary keys ("id is assigned exactly once, by storage,
    monotonically unique"), a counter.  A store may instead hand out
    again the key of a deleted last row; no statement below depends on
    a deleted key staying unused. *)
Record Database := {
  rows : list Task;
  sequence : Z
}.

Record World := {
  database : Database;
  clock : nat -> Z;
  ticks : nat
}.

Definition with_database (db : Database) (w : World) : World :=
  {| database := db; clock := clock w; ticks := ticks w |}.

(** Python exceptions the modelled code can raise. *)
Inductive Exn :=
| HTTPException (status_code : Z)
| InvalidRequestError
| StaleDataError.

Inductive Outcome (A : Type) :=
| Return (a : A) (w : World)
| Raise (e : Exn) (w : World).
Arguments Return {A} a w.
Arguments Raise {A} e w.

(** State and exceptions. *)
Definition M (A : Type) : Type := World -> Outcome A.

#[global] Instance M_ret : MRet M := fun A a w => Return a w.
#[global] Instance M_bind : MBind M := fun A B k m w =>
  match m w with
  | Return a w' => k a w'
  | Raise e w' => Raise e w'
  end.

Definition raise {A : Type} (e : Exn) : M A := fun w => Raise e w.

(** [for x in xs: body(x)] *)
Fixpoint for_each {A : Type} (body : A -> M unit) (xs : list A) : M unit :=
  match xs with
  | [] => mret tt
  | x :: xs' => body x ;; for_each body xs'
  end.

(** models.current_time: [datetime.now(UTC)], one reading of the clock. *)
Definition current_time : M Z := fun w =>
  Return (clock w (ticks w))
         {| database := database w; clock := clock w; ticks := S (ticks w) |}.

(** [Task(title=..., description=..., status=...)]: [id] takes its
    default [None]; [created_at] and [updated_at] each call their own
    [default_factory], in the order of the field declarations. *)
Definition Task_init (title : string) (description : option string)
    (status : string) : M Task :=
  created_at ← current_time;
  updated_at ← current_time;
  mret (Task.new None title description status created_at updated_at).

(** ** The SQLModel session, as far as app/crud.py uses it *)

(** The statements crud.py builds: [select(Task)] with an optional
    [.where(Task.status == v)], [.offset(n)] and [.limit(n)]. *)
Module Select.
Record t := new {
  whereclause : option string;
  offset_clause : option Z;
  limit_clause : option Z
}.

Definition where_status_eq (v : string) (s : t) : t :=
  new (Some v) (offset_clause s) (limit_clause s).
Definition offset (n : Z) (s : t) : t :=
  new (whereclause s) (Some n) (limit_clause s).
Definition limit (n : Z) (s : t) : t :=
  new (whereclause s) (offset_clause s) (Some n).
End Select.

Definition select_Task : Select.t := Select.new None None None.

(** WHERE on the scanned rows (text compared byte for byte), then
    OFFSET, then LIMIT.  A negative OFFSET skips nothing and a negative
    LIMIT bounds nothing. *)
Definition apply_where (c : option string) (l : list Task) : list Task :=
  match c with
  | None => l
  | Some v => filter (fun r => Task.status r = v) l
  end.
Definition apply_offset (c : option Z) (l : list Task) : list Task :=
  match c with
  | None => l
  | Some n => drop (Z.to_nat n) l
  end.
Definition apply_limit (c : option Z) (l : list Task) : list Task :=
  match c with
  | None => l
  | Some n => if decide (n < 0) then l else take (Z.to_nat n) l
  end.
Definition run_select (s : Select.t) (l : list Task) : list Task :=
  apply_limit (Select.limit_clause s)
    (apply_offset (Select.offset_clause s)
       (apply_where (Select.whereclause s) l)).

(** The row with primary key [k], if any. *)
Definition find_row (k : Z) (l : list Task) : option Task :=
  head (filter (fun r => Task.id r = Some k) l).

(** The integers the database driver binds as parameters of a query (the
    key given to [session.get], the offset and the limit of a
    statement): the signed 64-bit range.  For an integer outside it the
    driver raises OverflowError before any query runs.  That path is
    not part of this embedding: [Session.get] and [Session.exec] below
    describe the calls whose parameters are in range, and every
    statement about an integer that comes from the caller is made under
    [int64]. *)
Definition int64 (z : Z) : Prop := - 2 ^ 63 <= z < 2 ^ 63.

Module Session.

(** UPDATE ... WHERE id = k, as it acts on one scanned row. *)
Definition overwrite (k : Z) (task r : Task) : Task :=
  if decide (Task.id r = Some k) then task else r.

(** [session.get(Task, task_id)], for a key in the range [int64]. *)
Definition get (task_id : Z) : M (option Task) := fun w =>
  Return (find_row task_id (rows (database w))) w.

(** [session.exec(statement).all()], for an offset and a limit in the
    range [int64]. *)
Definition exec (statement : Select.t) : M (list Task) := fun w =>
  Return (run_select statement (rows (database w))) w.

(** [session.add(task)].  An object that has no primary key yet is
    inserted: it receives the next key and becomes the last row.  An
    object loaded from the table is written back over its row.  The
    write is applied at once; in a single session nothing can observe
    the difference from applying it at [commit]. *)
Definition add (task : Task) : M Task := fun w =>
  let db := database w in
  match Task.id task with
  | None =>
      let row := Task.set_id (Some (sequence db)) task in
      Return row
        (with_database {| rows := rows db ++ [row];
                          sequence := sequence db + 1 |} w)
  | Some k =>
      match find_row k (rows db) with
      | None => Raise StaleDataError w
      | Some _ =>
          Return task
            (with_database
               {| rows := overwrite k task <$> rows db;
                  sequence := sequence db |} w)
      end
  end.

(** [session.delete(task)]: DELETE ... WHERE id = task.id. *)
Definition delete (task : Task) : M unit := fun w =>
  let db := database w in
  match Task.id task with
  | None => Raise InvalidRequestError w
  | Some k =>
      Return tt
        (with_database
           {| rows := filter (fun r => Task.id r <> Some k) (rows db);
              sequence := sequence db |} w)
  end.

(** [session.commit()]: the writes of this session are already in
    [database]. *)
Definition commit : M unit := mret tt.

(** [session.refresh(task)]: reload the object from its row. *)
Definition refresh (task : Task) : M Task := fun w =>
  match Task.id task with
  | None => Raise InvalidRequestError w
  | Some k =>
      match find_row k (rows (database w)) with
      | None => Raise InvalidRequestError w
      | Some row => Return row w
      end
  end.

End Session.

(** ** app/crud.py *)

Definition create_task_status_default : string := "pending".
Definition get_all_tasks_skip_default : Z := 0.
Definition get_all_tasks_limit_default : Z := 100.

Definition create_task (title : string) (description : option string)
    (status : string) : M Task :=
  task ← Task_init title description status;
  task ← Session.add task;
  Session.commit ;;
  task ← Session.refresh task;
  mret task.

Definition get_task_by_id (task_id : Z) : M (option Task) :=
  Session.get task_id.

Definition get_all_tasks (skip limit : Z) : M (list Task) :=
  let statement := Select.limit limit (Select.offset skip select_Task) in
  results ← Session.exec statement;
  mret results.

Definition get_tasks_by_status (status : string) : M (list Task) :=
  let statement := Select.where_status_eq status select_Task in
  results ← Session.exec statement;
  mret results.

(** [if v is not None: task.field = v] *)
Definition assign_if_given {A : Type} (set : A -> Task -> Task)
    (v : option A) (task : Task) : Task :=
  match v with
  | Some a => set a task
  | None => task
  end.

Definition update_task (task_id : Z) (title description status : option string)
    : M (option Task) :=
  task ← Session.get task_id;
  match task with
  | None => mret None
  | Some task =>
      let task := assign_if_given Task.set_title title task in
      let task :=
        assign_if_given (fun v => Task.set_description (Some v)) description task in
      let task := assign_if_given Task.set_status status task in
      now ← current_time;
      let task := Task.set_updated_at now task in
      task ← Session.add task;
      Session.commit ;;
      task ← Session.refresh task;
      mret (Some task)
  end.

Definition delete_task (task_id : Z) : M bool :=
  task ← Session.get task_id;
  match task with
  | None => mret false
  | Some task =>
      Session.delete task ;;
      Session.commit ;;
      mret true
  end.

Definition delete_all_tasks : M Z :=
  let statement := select_Task in
  tasks ← Session.exec statement;
  let count := Z.of_nat (length tasks) in
  for_each Session.delete tasks ;;
  Session.commit ;;
  mret count.

(** ** app/schemas.py and app/main.py: the PUT endpoint *)

Record TaskUpdate := {
  upd_title : option string;
  upd_description : option string;
  upd_status : option string
}.

(** The constraints pydantic checks on a [TaskUpdate] body before the
    handler runs (a body that violates them is answered 422). *)
Definition TaskUpdate_valid (d : TaskUpdate) : bool :=
  match upd_title d with
  | None => true
  | Some s => bool_decide (1 <= String.length s <= 200)%nat
  end
  && match upd_description d with
     | None => true
     | Some s => bool_decide (String.length s <= 1000)%nat
     end
  && match upd_status d with
     | None => true
     | Some s => bool_decide (String.length s <= 20)%nat
     end.

(** Python truth value of an [Optional[str]]: [None] and the empty
    string are false. *)
Definition truthy (v : option string) : bool :=
  match v with
  | None => false
  | Some s => negb (bool_decide (s = EmptyString))
  end.

(** [any(xs)] *)
Definition any (xs : list bool) : bool := existsb (fun b => b) xs.

Definition HTTP_400_BAD_REQUEST : Z := 400.
Definition HTTP_404_NOT_FOUND : Z := 404.

(** A handler that returns normally is answered 200 with the returned
    task; an [HTTPException] is answered with its status code. *)
Definition update_existing_task (task_id : Z) (task_data : TaskUpdate)
    : M Task :=
  if negb (any [truthy (upd_title task_data);
                truthy (upd_description task_data);
                truthy (upd_status task_data)])
  then raise (HTTPException HTTP_400_BAD_REQUEST)
  else
    updated_task ← update_task task_id (upd_title task_data)
                      (upd_description task_data) (upd_status task_data);
    match updated_task with
    | None => raise (HTTPException HTTP_404_NOT_FOUND)
    | Some updated_task => mret updated_task
    end.

(** The status line of the response. *)
Definition status_code_of {A : Type} (o : Outcome A) : Z :=
  match o with
  | Return _ _ => 200
  | Raise (HTTPException c) _ => c
  | Raise _ _ => 500
  end.

(** ** app/schemas.py and app/main.py: the other endpoints *)

Module TaskCreate.
Record t := new {
  title : string;
  description : option string;
  status : string
}.

Definition status_default : string := "pending".

(** A parsed body: a missing [status] takes the default of the schema. *)
Definition parse (title : string) (description status : option string) : t :=
  new title description (default status_default status).

(** The constraints pydantic checks on the body (422 otherwise). *)
Definition valid (d : t) : bool :=
  bool_decide (1 <= String.length (title d) <= 200)%nat
  && match description d with
     | None => true
     | Some s => bool_decide (String.length s <= 1000)%nat
     end
  && bool_decide (String.length (status d) <= 20)%nat.
End TaskCreate.

Module TaskResponse.
Record t := new {
  id : Z;
  title : string;
  description : option string;
  status : string;
  created_at : Z;
  updated_at : Z
}.

(** Validation of a [Task] object against the schema
    ([from_attributes = True]): the attributes are copied; [id] must be
    an integer, so an object without a key is refused ([None] stands
    for pydantic's ValidationError). *)
Definition from_attributes (task : Task) : option t :=
  match Task.id task with
  | None => None
  | Some k =>
      Some (new k (Task.title task) (Task.description task)
              (Task.status task) (Task.created_at task)
              (Task.updated_at task))
  end.
End TaskResponse.

Module TaskListResponse.
Record t := new {
  tasks : list TaskResponse.t;
  total : Z
}.

(** [TaskListResponse(tasks=..., total=...)] given task objects. *)
Definition init (tasks : list Task) (total : Z) : option t :=
  match mapM TaskResponse.from_attributes tasks with
  | None => None
  | Some l => Some (new l total)
  end.
End TaskListResponse.

Module DeleteResponse.
Record t := new {
  message : string;
  deleted_count : Z
}.
End DeleteResponse.

Definition HTTP_201_CREATED : Z := 201.

(** [GET /health] *)
Definition health_check : M (list (string * string)) :=
  mret [("status"%string, "healthy"%string)].

(** [GET /tasks]: [if status:] is the truth value of the query
    parameter.  The result is [None] when the construction of the
    response object fails validation. *)
Definition get_tasks (status : option string) (skip limit : Z)
    : M (option TaskListResponse.t) :=
  tasks ← (if truthy status
           then get_tasks_by_status (default EmptyString status)
           else get_all_tasks skip limit);
  mret (TaskListResponse.init tasks (Z.of_nat (length tasks))).

(** [GET /tasks/{task_id}] *)
Definition get_task (task_id : Z) : M Task :=
  task ← get_task_by_id task_id;
  match task with
  | None => raise (HTTPException HTTP_404_NOT_FOUND)
  | Some task => mret task
  end.

(** [POST /tasks] *)
Definition create_new_task (task_data : TaskCreate.t) : M Task :=
  task ← create_task (TaskCreate.title task_data)
           (TaskCreate.description task_data) (TaskCreate.status task_data);
  mret task.

(** [DELETE /tasks/{task_id}]; [pretty] is the decimal notation of the
    integer, as in the f-string. *)
Definition delete_single_task (task_id : Z) : M DeleteResponse.t :=
  success ← delete_task task_id;
  if negb success
  then raise (HTTPException HTTP_404_NOT_FOUND)
  else mret (DeleteResponse.new
               ("Task " +:+ pretty task_id +:+ " deleted successfully") 1).

(** [DELETE /tasks] *)
Definition delete_all : M DeleteResponse.t :=
  deleted_count ← delete_all_tasks;
  mret (DeleteResponse.new "All tasks deleted successfully" deleted_count).

(** *** Requests and responses *)

(** A request as the routes of main.py receive it, path and query
    parameters and body already parsed to their declared types. *)
Inductive Request :=
| GET_health
| GET_tasks (status : option string) (skip limit : Z)
| GET_task (task_id : Z)
| POST_tasks (task_data : TaskCreate.t)
| PUT_task (task_id : Z) (task_data : TaskUpdate)
| DELETE_task (task_id : Z)
| DELETE_tasks.

(** The declared constraints: [Query(0, ge=0)], [Query(100, ge=1,
    le=1000)] and the two body schemas. *)
Definition Request_valid (r : Request) : bool :=
  match r with
  | GET_tasks _ skip limit =>
      bool_decide (0 <= skip) && bool_decide (1 <= limit <= 1000)
  | POST_tasks task_data => TaskCreate.valid task_data
  | PUT_task _ task_data => TaskUpdate_valid task_data
  | _ => true
  end.

Inductive Body :=
| HealthBody (d : list (string * string))
| TaskBody (t : TaskResponse.t)
| TaskListBody (l : TaskListResponse.t)
| DeleteBody (d : DeleteResponse.t)
| ErrorBody.

Record Response := {
  code : Z;
  body : Body
}.

(** What the framework answers for the outcome of a handler: the
    success code of the route with the returned value passed through
    the [response_model], the code of an [HTTPException], and 500 for
    any other exception or a value the [response_model] refuses. *)
Definition respond {A : Type} (success : Z) (encode : A -> option Body)
    (o : Outcome A) : Response * World :=
  match o with
  | Return a w =>
      match encode a with
      | Some b => ({| code := success; body := b |}, w)
      | None => ({| code := 500; body := ErrorBody |}, w)
      end
  | Raise (HTTPException c) w => ({| code := c; body := ErrorBody |}, w)
  | Raise _ w => ({| code := 500; body := ErrorBody |}, w)
  end.

Definition encode_task (task : Task) : option Body :=
  TaskBody <$> TaskResponse.from_attributes task.

(** One request served: 422 without calling the handler when a declared
    constraint is violated, the handler of the route otherwise. *)
Definition serve (r : Request) (w : World) : Response * World :=
  if negb (Request_valid r)
  then ({| code := 422; body := ErrorBody |}, w)
  else
    match r with
    | GET_health => respond 200 (fun d => Some (HealthBody d)) (health_check w)
    | GET_tasks status skip limit =>
        respond 200 (fmap TaskListBody) (get_tasks status skip limit w)
    | GET_task task_id => respond 200 encode_task (get_task task_id w)
    | POST_tasks task_data =>
        respond HTTP_201_CREATED encode_task (create_new_task task_data w)
    | PUT_task task_id task_data =>
        respond 200 encode_task (update_existing_task task_id task_data w)
    | DELETE_task task_id =>
        respond 200 (fun d => Some (DeleteBody d)) (delete_single_task task_id w)
    | DELETE_tasks =>
        respond 200 (fun d => Some (DeleteBody d)) (delete_all w)
    end.

(** A session of requests, one after the other; the responses in order. *)
Fixpoint serve_all (rs : list Request) (w : World) : list Response * World :=
  match rs with
  | [] => ([], w)
  | r :: rs' =>
      let '(a, w1) := serve r w in
      let '(l, w2) := serve_all rs' w1 in
      (a :: l, w2)
  end.

(** * Vocabulary of the properties *)

(** The object [update_task] writes back: the loaded row after the three
    guarded assignments and the assignment of [updated_at]. *)
Definition updated_row (title description status : option string) (now : Z)
    (t : Task) : Task :=
  Task.set_updated_at now
    (assign_if_given Task.set_status status
       (assign_if_given (fun v => Task.set_description (Some v)) description
          (assign_if_given Task.set_title title t))).

(** What the storage engine maintains for a table with an integer
    primary key: every row carries a key, a scan returns the rows by
    ascending key (so no key occurs twice), and the generator is above
    every key in use. *)
Definition key_below (n : Z) (r : Task) : Prop :=
  match Task.id r with
  | Some k => k < n
  | None => False
  end.

Definition key_lt (r s : Task) : Prop :=
  match Task.id r, Task.id s with
  | Some a, Some b => a < b
  | _, _ => False
  end.

Record Database_ok (db : Database) : Prop := {
  ok_keys : Forall (key_below (sequence db)) (rows db);
  ok_order : StronglySorted key_lt (rows db)
}.

(** A clock that is never set back. *)
Definition nondecreasing (c : nat -> Z) : Prop := forall n, c n <= c (S n).

Definition ordered (r : Task) : Prop :=
  Task.created_at r <= Task.updated_at r.

(** A reading the clock has already given. *)
Definition past_reading (w : World) (z : Z) : Prop :=
  exists m, (m < ticks w)%nat /\ z = clock w m.

(** The row is ordered and both its stamps are readings already taken. *)
Definition stamped (w : World) (r : Task) : Prop :=
  ordered r /\
  past_reading w (Task.created_at r) /\
  past_reading w (Task.updated_at r).

(** A clock that advances between any two readings. *)
Definition increasing (c : nat -> Z) : Prop := forall n, c n < c (S n).

(** What one repository call, or a run of them, carries from the world
    it starts in to the world it ends in. *)
Record Step (w w' : World) : Prop := {
  step_database : Database_ok (database w');
  step_clock : clock w' = clock w;
  step_stamps :
    nondecreasing (clock w) ->
    Forall (stamped w) (rows (database w)) ->
    Forall (stamped w') (rows (database w'))
}.

(** A task stored under the same id in both worlds has the same
    [created_at] in both. *)
Definition created_at_kept (w w' : World) : Prop :=
  forall k t t',
    get_task_by_id k w = Return (Some t) w ->
    get_task_by_id k w' = Return (Some t') w' ->
    Task.created_at t' = Task.created_at t.

(** The operations that write, as a client can request them. *)
Inductive Call :=
| CreateTask (title : string) (description : option string) (status : string)
| UpdateTask (task_id : Z) (title description status : option string)
| DeleteTask (task_id : Z)
| DeleteAllTasks.

Definition perform (c : Call) : M unit :=
  match c with
  | CreateTask title description status =>
      create_task title description status ;; mret tt
  | UpdateTask task_id title description status =>
      update_task task_id title description status ;; mret tt
  | DeleteTask task_id => delete_task task_id ;; mret tt
  | DeleteAllTasks => delete_all_tasks ;; mret tt
  end.

Definition run (calls : list Call) : M unit := for_each perform calls.

(** ** Sample clocks and worlds *)

(** Modelled from the spec: the store as app/database.py leaves it on a
    first start (the table exists and is empty); the first task created
    receives id 1, as in the spec's scenario. *)
Definition empty_database : Database := {| rows := []; sequence := 1 |}.

Definition boot (c : nat -> Z) : World :=
  {| database := empty_database; clock := c; ticks := 0 |}.

(** A clock that advances one microsecond per reading. *)
Definition steady_clock : nat -> Z := fun n => 1000 + Z.of_nat n.

(** A wall clock that is set back (an operator or a time-sync step
    corrects it) after its second reading. *)
Definition set_back_clock : nat -> Z := fun n =>
  match n with
  | O => 1000
  | S O => 1001
  | S (S n') => 400 + Z.of_nat n'
  end.

Definition first_task : Task :=
  Task.new (Some 1) "A" (Some "first"%string) "pending" 1000 1001.

Definition one_task_world : World :=
  {| database := {| rows := [first_task]; sequence := 2 |};
     clock := steady_clock;
     ticks := 2 |}.

(** The run behind the two set-back scenarios: task 1 as created at the
    readings 1000 and 1001, and as updated at the reading 400. *)
Definition task_before_set_back : Task :=
  Task.new (Some 1) "A" None "pending" 1000 1001.

Definition world_before_set_back : World :=
  {| database := {| rows := [task_before_set_back]; sequence := 2 |};
     clock := set_back_clock;
     ticks := 2 |}.

Definition task_after_set_back : Task :=
  Task.new (Some 1) "A" None "done" 1000 400.

Definition world_after_set_back : World :=
  {| database := {| rows := [task_after_set_back]; sequence := 2 |};
     clock := set_back_clock;
     ticks := 3 |}.

(** The body of a PUT request whose only field is [description], set to
    the empty string. *)
Definition clear_description : TaskUpdate :=
  {| upd_title := None; upd_description := Some EmptyString;
     upd_status := None |}.

(** The body of a PUT request that sets the status to "done". *)
Definition mark_done : TaskUpdate :=
  {| upd_title := None; upd_description := None;
     upd_status := Some "done"%string |}.

(** A short session: create a task, mark it done, list, delete it. *)
Definition sample_session : list Request :=
  [POST_tasks (TaskCreate.parse "A" None None);
   PUT_task 1 mark_done;
   GET_tasks None 0 100;
   DELETE_task 1].

(** Task 1 as created on the empty table under the steady clock. *)
Definition task_under_steady_clock : Task :=
  Task.new (Some 1) "A" None "pending" 1000 1001.

Definition world_under_steady_clock : World :=
  {| database := {| rows := [task_under_steady_clock]; sequence := 2 |};
     clock := steady_clock;
     ticks := 2 |}.

Definition three_task_world : World :=
  {| database :=
       {| rows := [Task.new (Some 1) "A" None "pending" 1000 1001;
                   Task.new (Some 2) "B" None "pending" 1002 1003;
                   Task.new (Some 3) "C" None "completed" 1004 1005];
          sequence := 4 |};
     clock := steady_clock;
     ticks := 6 |}.

(** A table of 101 tasks, the last one completed, the others pending. *)
Definition crowded_world : World :=
  {| database :=
       {| rows := (fun k => Task.new (Some k) "task" None
                              (if decide (k = 101) then "completed"
                               else "pending") 1000 1000)
                  <$> seqZ 1 101;
          sequence := 102 |};
     clock := steady_clock;
     ticks := 202 |}.

(** ** Vocabulary of the endpoint properties *)

(** The task object a response entry was made from. *)
Definition as_task (r : TaskResponse.t) : Task :=
  Task.new (Some (TaskResponse.id r)) (TaskResponse.title r)
    (TaskResponse.description r) (TaskResponse.status r)
    (TaskResponse.created_at r) (TaskResponse.updated_at r).

(** The bounds of the two body schemas, on a stored task. *)
Definition within_schema (r : Task) : Prop :=
  (1 <= String.length (Task.title r) <= 200)%nat /\
  match Task.description r with
  | None => True
  | Some s => (String.length s <= 1000)%nat
  end /\
  (String.length (Task.status r) <= 20)%nat.

(** The integers of the request (path parameter, [skip], [limit]) are
    ones the driver accepts. *)
Definition Request_in_range (r : Request) : Prop :=
  match r with
  | GET_tasks _ skip limit => int64 skip /\ int64 limit
  | GET_task task_id => int64 task_id
  | PUT_task task_id _ => int64 task_id
  | DELETE_task task_id => int64 task_id
  | _ => True
  end.

(** The status codes main.py answers with on purpose. *)
Definition expected_code (c : Z) : Prop :=
  c = 200 \/ c = 201 \/ c = 400 \/ c = 404 \/ c = 422.

(** * Properties *)

(** ** Lookups by primary key *)

Lemma find_row_cons k r l :
  find_row k (r :: l) =
  if decide (Task.id r = Some k) then Some r else find_row k l.
Proof.
  unfold find_row. rewrite filter_cons.
  destruct (decide (Task.id r = Some k)); reflexivity.
Qed.

Lemma find_row_Some k l t :
  find_row k l = Some t -> t ∈ l /\ Task.id t = Some k.
Proof.
  induction l as [|r l IH]; [discriminate|].
  rewrite find_row_cons. destruct (decide (Task.id r = Some k)) as [E|E].
  - intros [= <-]. split; [left | exact E].
  - intros H. destruct (IH H) as [Hin Hid]. split; [by right | exact Hid].
Qed.

Lemma find_row_None k l :
  find_row k l = None <-> (forall r, r ∈ l -> Task.id r <> Some k).
Proof.
  induction l as [|r l IH].
  - split; [intros _ r Hr; inversion Hr | reflexivity].
  - rewrite find_row_cons. destruct (decide (Task.id r = Some k)) as [E|E].
    + split; [discriminate|]. intros H. exfalso. apply (H r); [left | exact E].
    + rewrite IH. split.
      * intros H s Hs. apply elem_of_cons in Hs as [->|Hs]; auto.
      * intros H s Hs. apply H. by right.
Qed.

Lemma find_row_is_Some k l r :
  r ∈ l -> Task.id r = Some k -> is_Some (find_row k l).
Proof.
  intros Hin Hid. destruct (find_row k l) eqn:E; [eauto|].
  rewrite find_row_None in E. destruct (E r Hin Hid).
Qed.

Lemma overwrite_hit k task r :
  Task.id r = Some k -> Session.overwrite k task r = task.
Proof. intros E. unfold Session.overwrite. by rewrite decide_True. Qed.

Lemma overwrite_miss k task r :
  Task.id r <> Some k -> Session.overwrite k task r = r.
Proof. intros E. unfold Session.overwrite. by rewrite decide_False. Qed.

(** The row written back by [Session.add] is the one a later lookup by
    the same key returns. *)
Lemma find_row_overwrite k task l :
  is_Some (find_row k l) -> Task.id task = Some k ->
  find_row k (Session.overwrite k task <$> l) = Some task.
Proof.
  intros [t Ht] Hid. induction l as [|r l IH]; [discriminate|].
  rewrite fmap_cons, find_row_cons. rewrite find_row_cons in Ht.
  destruct (decide (Task.id r = Some k)) as [E|E].
  - rewrite (overwrite_hit _ _ _ E). by rewrite decide_True.
  - rewrite (overwrite_miss _ _ _ E). rewrite decide_False by exact E. auto.
Qed.

Lemma find_row_overwrite_ne k k' task l :
  k' <> k -> Task.id task = Some k ->
  find_row k' (Session.overwrite k task <$> l) = find_row k' l.
Proof.
  intros Hne Hid. induction l as [|r l IH]; [reflexivity|].
  rewrite fmap_cons, !find_row_cons.
  destruct (decide (Task.id r = Some k)) as [E|E].
  - rewrite (overwrite_hit _ _ _ E).
    rewrite !decide_False by congruence. exact IH.
  - rewrite (overwrite_miss _ _ _ E), IH. reflexivity.
Qed.

Lemma find_row_delete k l :
  find_row k (filter (fun r => Task.id r <> Some k) l) = None.
Proof.
  apply find_row_None. intros r Hr. apply list_elem_of_filter in Hr. tauto.
Qed.

Lemma find_row_delete_ne k k' l :
  k' <> k ->
  find_row k' (filter (fun r => Task.id r <> Some k) l) = find_row k' l.
Proof.
  intros Hne. induction l as [|r l IH]; [reflexivity|].
  rewrite filter_cons, find_row_cons.
  destruct (decide (Task.id r <> Some k)) as [E|E].
  - rewrite find_row_cons, IH. reflexivity.
  - rewrite IH. rewrite decide_False; [reflexivity|].
    intros E'. apply E. congruence.
Qed.

(** ** update_task *)

Lemma updated_row_id title description status now t :
  Task.id (updated_row title description status now t) = Task.id t.
Proof. by destruct title, description, status. Qed.

Lemma updated_row_created_at title description status now t :
  Task.created_at (updated_row title description status now t)
  = Task.created_at t.
Proof. by destruct title, description, status. Qed.

Lemma updated_row_updated_at title description status now t :
  Task.updated_at (updated_row title description status now t) = now.
Proof. by destruct title, description, status. Qed.

Lemma updated_row_title title description status now t :
  Task.title (updated_row title description status now t)
  = default (Task.title t) title.
Proof. by destruct title, description, status. Qed.

Lemma updated_row_status title description status now t :
  Task.status (updated_row title description status now t)
  = default (Task.status t) status.
Proof. by destruct title, description, status. Qed.

Lemma updated_row_description title description status now t :
  Task.description (updated_row title description status now t)
  = match description with
    | Some v => Some v
    | None => Task.description t
    end.
Proof. by destruct title, description, status. Qed.

Create Rewrite HintDb updated_row.
#[local] Hint Rewrite updated_row_id updated_row_created_at
  updated_row_updated_at updated_row_title updated_row_status
  updated_row_description : updated_row.

(** What a call on a stored id does, as one equation: one clock reading,
    one row overwritten, the reloaded row returned. *)
Lemma update_task_found w task_id title description status t :
  find_row task_id (rows (database w)) = Some t ->
  update_task task_id title description status w =
  let t' := updated_row title description status (clock w (ticks w)) t in
  Return (Some t')
    {| database :=
         {| rows := Session.overwrite task_id t' <$> rows (database w);
            sequence := sequence (database w) |};
       clock := clock w;
       ticks := S (ticks w) |}.
Proof.
  intros Hget.
  destruct (find_row_Some _ _ _ Hget) as [_ Hid].
  pose proof (updated_row_id title description status (clock w (ticks w)) t)
    as Hid'.
  rewrite Hid in Hid'.
  unfold update_task, mbind, M_bind, Session.get. rewrite Hget.
  fold (updated_row title description status).
  unfold current_time, Session.add, Session.commit, Session.refresh,
    with_database, mret, M_ret.
  cbn [database ticks clock rows sequence].
  change (Task.set_updated_at (clock w (ticks w))
            (assign_if_given Task.set_status status
               (assign_if_given (fun v => Task.set_description (Some v))
                  description (assign_if_given Task.set_title title t))))
    with (updated_row title description status (clock w (ticks w)) t).
  rewrite Hid', Hget. cbn [database ticks clock rows sequence].
  rewrite Hid'. cbn [database rows].
  rewrite find_row_overwrite by (rewrite ?Hget; eauto).
  reflexivity.
Qed.

(** The returned object is the row a lookup then finds. *)
Lemma update_task_found_get w task_id title description status t t' w' :
  find_row task_id (rows (database w)) = Some t ->
  update_task task_id title description status w = Return (Some t') w' ->
  get_task_by_id task_id w' = Return (Some t') w'.
Proof.
  intros Hget. rewrite (update_task_found _ _ _ _ _ _ Hget). cbn zeta.
  intros [= <- <-]. unfold get_task_by_id, Session.get. cbn [database rows].
  rewrite find_row_overwrite; [done | rewrite Hget; eauto |].
  rewrite updated_row_id. by destruct (find_row_Some _ _ _ Hget).
Qed.

Lemma update_task_missing w task_id title description status :
  find_row task_id (rows (database w)) = None ->
  update_task task_id title description status w = Return None w.
Proof.
  intros Hget. unfold update_task, mbind, M_bind, Session.get.
  rewrite Hget. reflexivity.
Qed.

(** ** delete_task and delete_all_tasks *)

Lemma filter_other_keys_id k l :
  find_row k l = None -> filter (fun r => Task.id r <> Some k) l = l.
Proof.
  rewrite find_row_None. intros Hnone.
  induction l as [|r l IH]; [done|].
  rewrite filter_cons_True by (apply Hnone; left).
  f_equal. apply IH. intros s Hs. apply Hnone. by right.
Qed.

(** One call as one equation. *)
Lemma delete_task_outcome w task_id :
  delete_task task_id w =
  match find_row task_id (rows (database w)) with
  | Some _ =>
      Return true
        (with_database
           {| rows := filter (fun r => Task.id r <> Some task_id)
                        (rows (database w));
              sequence := sequence (database w) |} w)
  | None => Return false w
  end.
Proof.
  unfold delete_task, mbind, M_bind, Session.get.
  destruct (find_row task_id (rows (database w))) as [t|] eqn:Hget;
    [|reflexivity].
  destruct (find_row_Some _ _ _ Hget) as [_ Hid].
  unfold Session.delete. by rewrite Hid.
Qed.

(** The loop of [delete_all_tasks]: deleting every object of [l] leaves
    the rows whose id no object of [l] carries. *)
Lemma for_each_delete l db c n :
  Forall (fun r => is_Some (Task.id r)) l ->
  for_each Session.delete l {| database := db; clock := c; ticks := n |} =
  Return tt
    {| database :=
         {| rows := filter (fun r => Task.id r ∉ Task.id <$> l) (rows db);
            sequence := sequence db |};
       clock := c; ticks := n |}.
Proof.
  intros Hl. revert db. induction Hl as [|x l [k Hk] _ IH]; intros db.
  - cbn. unfold mret, M_ret. do 2 f_equal. destruct db as [T s]. cbn.
    f_equal. induction T as [|r T IHT]; [done|].
    rewrite filter_cons_True; [by f_equal|]. apply not_elem_of_nil.
  - cbn [for_each]. unfold mbind, M_bind, Session.delete at 1.
    cbn [database]. rewrite Hk. unfold with_database.
    cbn [clock ticks]. rewrite IH. cbn [rows sequence].
    do 3 f_equal. rewrite list_filter_filter. apply list_filter_iff.
    intros r. rewrite fmap_cons, not_elem_of_cons, Hk. tauto.
Qed.

Lemma filter_own_keys (l : list Task) :
  filter (fun r => Task.id r ∉ Task.id <$> l) l = [].
Proof.
  apply elem_of_nil_inv. intros r Hr.
  apply list_elem_of_filter in Hr as [Hnot Hin].
  apply Hnot. by apply list_elem_of_fmap_2.
Qed.

(** One call as one equation. *)
Lemma delete_all_tasks_outcome w :
  Forall (fun r => is_Some (Task.id r)) (rows (database w)) ->
  delete_all_tasks w =
  Return (Z.of_nat (length (rows (database w))))
    (with_database {| rows := []; sequence := sequence (database w) |} w).
Proof.
  intros Hkeys. unfold delete_all_tasks, mbind, M_bind, Session.exec.
  unfold run_select, select_Task, apply_where, apply_offset, apply_limit.
  cbn [Select.whereclause Select.offset_clause Select.limit_clause].
  destruct w as [db c n]. cbn [database] in *.
  rewrite (for_each_delete _ _ _ _ Hkeys), filter_own_keys.
  reflexivity.
Qed.

(** ** Well-formed tables *)

Lemma key_below_same_id n r s :
  Task.id s = Task.id r -> key_below n r -> key_below n s.
Proof. unfold key_below. by intros ->. Qed.

Lemma key_lt_same_ids r s r' s' :
  Task.id r' = Task.id r -> Task.id s' = Task.id s ->
  key_lt r s -> key_lt r' s'.
Proof. unfold key_lt. by intros -> ->. Qed.

Lemma overwrite_id k task r :
  Task.id task = Some k -> Task.id (Session.overwrite k task r) = Task.id r.
Proof.
  intros Hid. unfold Session.overwrite.
  destruct (decide (Task.id r = Some k)); congruence.
Qed.

Lemma StronglySorted_sublist {A} (R : relation A) (l1 l2 : list A) :
  l1 `sublist_of` l2 -> StronglySorted R l2 -> StronglySorted R l1.
Proof.
  induction 1 as [|x l1 l2 Hsub IH|x l1 l2 Hsub IH];
    rewrite ?StronglySorted_cons; [done| |tauto].
  intros [Hx Hl2]. split; [|auto].
  rewrite Forall_forall in *. intros y Hy. apply Hx.
  by apply (elem_of_sublist l1).
Qed.

Lemma empty_database_ok : Database_ok empty_database.
Proof. split; constructor. Qed.

Lemma Database_ok_fresh db :
  Database_ok db -> find_row (sequence db) (rows db) = None.
Proof.
  intros [Hkeys _]. apply find_row_None. intros r Hr Hid.
  rewrite Forall_forall in Hkeys. specialize (Hkeys r Hr).
  unfold key_below in Hkeys. rewrite Hid in Hkeys. lia.
Qed.

Lemma Database_ok_insert db row :
  Database_ok db -> Task.id row = Some (sequence db) ->
  Database_ok {| rows := rows db ++ [row]; sequence := sequence db + 1 |}.
Proof.
  intros [Hkeys Hord] Hid. split; cbn [rows sequence].
  - apply Forall_app. split.
    + eapply Forall_impl; [exact Hkeys|]. intros r. unfold key_below.
      destruct (Task.id r); [lia|done].
    + repeat constructor. unfold key_below. rewrite Hid. lia.
  - apply StronglySorted_app. split; [|split; [done | repeat constructor]].
    intros r s Hr Hs. apply list_elem_of_singleton in Hs as ->.
    rewrite Forall_forall in Hkeys. specialize (Hkeys r Hr).
    unfold key_below in Hkeys. unfold key_lt. rewrite Hid.
    by destruct (Task.id r).
Qed.

Lemma Database_ok_overwrite db k task :
  Database_ok db -> Task.id task = Some k ->
  Database_ok {| rows := Session.overwrite k task <$> rows db;
                 sequence := sequence db |}.
Proof.
  intros [Hkeys Hord] Hid. split; cbn [rows sequence].
  - apply Forall_fmap. eapply Forall_impl; [exact Hkeys|].
    intros r Hr. cbn. eapply key_below_same_id; [|exact Hr].
    by apply overwrite_id.
  - eapply StronglySorted_fmap; [|exact Hord].
    intros r s Hrs. eapply key_lt_same_ids; [| |exact Hrs];
      by apply overwrite_id.
Qed.

Lemma Database_ok_filter db (P : Task -> Prop) `{!forall r, Decision (P r)} :
  Database_ok db ->
  Database_ok {| rows := filter P (rows db); sequence := sequence db |}.
Proof.
  intros [Hkeys Hord]. split; cbn [rows sequence].
  - rewrite Forall_forall in *. intros r Hr.
    apply list_elem_of_filter in Hr as [_ Hr]. auto.
  - eapply StronglySorted_sublist; [apply sublist_filter | exact Hord].
Qed.

Lemma find_row_app k l1 l2 :
  find_row k (l1 ++ l2) =
  match find_row k l1 with
  | Some r => Some r
  | None => find_row k l2
  end.
Proof.
  induction l1 as [|r l1 IH]; [reflexivity|].
  rewrite <- app_comm_cons, !find_row_cons.
  by destruct (decide (Task.id r = Some k)).
Qed.

(** ** create_task *)

(** One call as one equation: two clock readings, one key drawn, one
    row appended, that row returned. *)
Lemma create_task_inserts w title description status :
  Database_ok (database w) ->
  create_task title description status w =
  let row := Task.new (Some (sequence (database w))) title description status
               (clock w (ticks w)) (clock w (S (ticks w))) in
  Return row
    {| database := {| rows := rows (database w) ++ [row];
                      sequence := sequence (database w) + 1 |};
       clock := clock w;
       ticks := S (S (ticks w)) |}.
Proof.
  intros Hok. pose proof (Database_ok_fresh _ Hok) as Hfresh.
  unfold create_task, Task_init, mbind, M_bind, current_time,
    Session.add, Session.commit, Session.refresh, with_database.
  unfold mret, M_ret, Task.set_id.
  cbn [database clock ticks rows sequence Task.id
       Task.title Task.description Task.status Task.created_at
       Task.updated_at].
  rewrite find_row_app, Hfresh, find_row_cons.
  cbn [Task.id]. rewrite decide_True by reflexivity. reflexivity.
Qed.

(** ** Listings *)

Lemma get_all_tasks_slice w skip lim :
  0 <= lim ->
  get_all_tasks skip lim w =
  Return (take (Z.to_nat lim) (drop (Z.to_nat skip) (rows (database w)))) w.
Proof.
  intros Hlim. unfold get_all_tasks, mbind, M_bind, Session.exec, run_select.
  cbn. rewrite decide_False by lia. reflexivity.
Qed.

Lemma get_tasks_by_status_filter w x :
  get_tasks_by_status x w =
  Return (filter (fun r => Task.status r = x) (rows (database w))) w.
Proof. reflexivity. Qed.

Lemma three_task_world_ok : Database_ok (database three_task_world).
Proof.
  split; cbn; repeat constructor; unfold key_below, key_lt; cbn; lia.
Qed.


(** ** Steps and runs *)

Lemma created_at_kept_refl w : created_at_kept w w.
Proof. intros k t t' H1 H2. rewrite H1 in H2. by injection H2 as <-. Qed.

Lemma nondecreasing_le c m n :
  nondecreasing c -> (m <= n)%nat -> c m <= c n.
Proof.
  intros Hc Hmn. induction Hmn as [|n _ IH]; [lia|].
  specialize (Hc n). lia.
Qed.

Lemma past_reading_later w w' z :
  clock w' = clock w -> (ticks w <= ticks w')%nat ->
  past_reading w z -> past_reading w' z.
Proof.
  intros Hc Ht (m & Hm & Hz). exists m. rewrite Hc. split; [lia | exact Hz].
Qed.

Lemma stamped_later w w' r :
  clock w' = clock w -> (ticks w <= ticks w')%nat ->
  stamped w r -> stamped w' r.
Proof.
  intros Hc Ht (Ho & Hcr & Hup).
  split; [exact Ho|]. split; by eapply past_reading_later.
Qed.

Lemma increasing_lt c m n : increasing c -> (m < n)%nat -> c m < c n.
Proof.
  intros Hc Hmn. induction Hmn as [|n _ IH]; [apply Hc|].
  specialize (Hc n). lia.
Qed.

Lemma increasing_nondecreasing c : increasing c -> nondecreasing c.
Proof. intros Hc n. specialize (Hc n). lia. Qed.

Lemma keyed_of_Database_ok db :
  Database_ok db -> Forall (fun r => is_Some (Task.id r)) (rows db).
Proof.
  intros [Hkeys _]. eapply Forall_impl; [exact Hkeys|].
  intros r. unfold key_below. destruct (Task.id r); [eauto | done].
Qed.

Lemma Step_refl w : Database_ok (database w) -> Step w w.
Proof. intros Hdb. by split. Qed.

Lemma Step_trans w1 w2 w3 : Step w1 w2 -> Step w2 w3 -> Step w1 w3.
Proof.
  intros [Hdb2 Hc2 Hs2] [Hdb3 Hc3 Hs3]. split.
  - exact Hdb3.
  - congruence.
  - intros Hc Hst. apply Hs3; [by rewrite Hc2 | auto].
Qed.

Section Steps.

Variable w : World.
Hypothesis Hdb : Database_ok (database w).

Lemma create_task_step title description status :
  exists t w',
    create_task title description status w = Return t w' /\
    Step w w' /\ created_at_kept w w'.
Proof.
  eexists _, _. split; [by apply create_task_inserts|]. cbn zeta.
  split; [split|]; cbn [database rows sequence clock ticks].
  - by apply Database_ok_insert.
  - reflexivity.
  - intros Hc Hst. apply Forall_app. split.
    + eapply Forall_impl; [exact Hst|]. intros r.
      apply stamped_later; cbn; [done | lia].
    + repeat constructor.
      * unfold ordered. cbn. apply Hc.
      * exists (ticks w). cbn. split; [lia | done].
      * exists (S (ticks w)). cbn. split; [lia | done].
  - intros k t t'. unfold get_task_by_id, Session.get. cbn [database rows].
    intros [= Ht]. rewrite find_row_app, Ht. by intros [= <-].
Qed.

Lemma update_task_step task_id title description status :
  exists o w',
    update_task task_id title description status w = Return o w' /\
    Step w w' /\ created_at_kept w w'.
Proof.
  destruct (find_row task_id (rows (database w))) as [t|] eqn:Hget.
  2: { exists None, w. rewrite update_task_missing by done.
       split; [done|]. split; [by apply Step_refl|].
       apply created_at_kept_refl. }
  destruct (find_row_Some _ _ _ Hget) as [Hin Hid].
  eexists _, _. split; [by apply update_task_found|]. cbn zeta.
  set (t' := updated_row title description status (clock w (ticks w)) t).
  assert (Hid' : Task.id t' = Some task_id)
    by (unfold t'; by rewrite updated_row_id).
  split; [split|]; cbn [database rows sequence clock ticks].
  - by apply Database_ok_overwrite.
  - reflexivity.
  - intros Hc Hst.
    pose proof (proj1 (Forall_forall _ _) Hst t Hin)
      as (_ & (m & Hm & Hcr) & _).
    apply Forall_fmap. rewrite Forall_forall in *. intros r Hr. cbn.
    unfold Session.overwrite. destruct (decide (Task.id r = Some task_id)).
    + split; [|split].
      * unfold ordered, t'.
        rewrite updated_row_created_at, updated_row_updated_at, Hcr.
        apply nondecreasing_le; [done | lia].
      * exists m. cbn [clock ticks]. unfold t'.
        rewrite updated_row_created_at. split; [lia | done].
      * exists (ticks w). cbn [clock ticks]. unfold t'.
        rewrite updated_row_updated_at. split; [lia | done].
    + eapply stamped_later; [| |exact (Hst r Hr)]; cbn; [done | lia].
  - intros k s s'. unfold get_task_by_id, Session.get. cbn [database rows].
    intros [= Hs]. destruct (decide (k = task_id)) as [->|Hne].
    + rewrite find_row_overwrite by (rewrite ?Hget; eauto).
      intros [= <-]. rewrite Hget in Hs. injection Hs as <-.
      unfold t'. by rewrite updated_row_created_at.
    + rewrite find_row_overwrite_ne, Hs by done. by intros [= <-].
Qed.

Lemma delete_task_step task_id :
  exists b w',
    delete_task task_id w = Return b w' /\
    Step w w' /\ created_at_kept w w'.
Proof.
  rewrite delete_task_outcome.
  destruct (find_row task_id (rows (database w))) as [t|] eqn:Hget.
  2: { exists false, w. split; [done|]. split; [by apply Step_refl|].
       apply created_at_kept_refl. }
  eexists _, _. split; [reflexivity|]. unfold with_database.
  split; [split|]; cbn [database rows sequence clock ticks].
  - by apply Database_ok_filter.
  - reflexivity.
  - intros _ Hst. rewrite Forall_forall in *. intros r Hr.
    apply list_elem_of_filter in Hr as [_ Hr].
    eapply stamped_later; [| |exact (Hst r Hr)]; cbn; [done | lia].
  - intros k s s'. unfold get_task_by_id, Session.get. cbn [database rows].
    intros [= Hs]. destruct (decide (k = task_id)) as [->|Hne].
    + by rewrite find_row_delete.
    + rewrite find_row_delete_ne, Hs by done. by intros [= <-].
Qed.

Lemma delete_all_tasks_step :
  exists n w',
    delete_all_tasks w = Return n w' /\
    Step w w' /\ created_at_kept w w'.
Proof.
  rewrite (delete_all_tasks_outcome _ (keyed_of_Database_ok _ Hdb)).
  eexists _, _. split; [reflexivity|]. unfold with_database.
  split; [split|]; cbn [database rows sequence clock ticks].
  - split; constructor.
  - reflexivity.
  - constructor.
  - intros k s s' _. unfold get_task_by_id, Session.get. cbn. discriminate.
Qed.

Lemma perform_step call :
  exists w',
    perform call w = Return tt w' /\ Step w w' /\ created_at_kept w w'.
Proof.
  unfold perform, mbind, M_bind.
  destruct call as [ti de st|k ti de st|k|].
  - destruct (create_task_step ti de st) as (t & w' & -> & H). by exists w'.
  - destruct (update_task_step k ti de st) as (o & w' & -> & H). by exists w'.
  - destruct (delete_task_step k) as (b & w' & -> & H). by exists w'.
  - destruct delete_all_tasks_step as (n & w' & -> & H). by exists w'.
Qed.

End Steps.

(** Every run returns, whatever the calls. *)
Lemma run_steps calls w :
  Database_ok (database w) ->
  exists w', run calls w = Return tt w' /\ Step w w'.
Proof.
  revert w. induction calls as [|call calls IH]; intros w Hdb.
  - exists w. split; [done | by apply Step_refl].
  - destruct (perform_step w Hdb call) as (w1 & Hrun & Hstep1 & _).
    destruct (IH w1 (step_database _ _ Hstep1)) as (w2 & Hrun2 & Hstep2).
    exists w2. unfold run in *. cbn [for_each]. unfold mbind, M_bind.
    rewrite Hrun. split; [done|]. by apply (Step_trans w w1 w2).
Qed.

(** Every world a run reaches from the empty table is well formed. *)
Lemma run_from_boot_ok c calls :
  exists w, run calls (boot c) = Return tt w /\ Database_ok (database w).
Proof.
  destruct (run_steps calls (boot c) empty_database_ok) as (w & Hrun & Hstep).
  exists w. split; [exact Hrun | exact (step_database _ _ Hstep)].
Qed.

(** Under a clock that advances between any two readings, in every world
    a run reaches from the empty table, an update of a stored task
    stores an [updated_at] above the prior one. *)
Lemma update_task_later_under_increasing_clock
    c calls task_id title description status :
  increasing c ->
  exists w,
    run calls (boot c) = Return tt w /\
    forall t,
      get_task_by_id task_id w = Return (Some t) w ->
      exists t' w',
        update_task task_id title description status w
          = Return (Some t') w' /\
        Task.updated_at t < Task.updated_at t'.
Proof.
  intros Hc.
  destruct (run_steps calls (boot c) empty_database_ok)
    as (w & Hrun & [Hdb Hcw Hst]).
  specialize (Hst (increasing_nondecreasing _ Hc) (Forall_nil_2 _)).
  exists w. split; [exact Hrun|]. intros t [= Hget].
  destruct (find_row_Some _ _ _ Hget) as [Hin _].
  pose proof (proj1 (Forall_forall _ _) Hst t Hin)
    as (_ & _ & (m & Hm & Hup)).
  eexists _, _. split; [by apply update_task_found|]. cbn zeta.
  rewrite updated_row_updated_at, Hup, Hcw. cbn [boot clock].
  by apply increasing_lt.
Qed.

(** * The claims *)

(** C1 (as amended): an update on a stored id returns the stored row
    in which every supplied field has the supplied value, every field
    not supplied (and [id] and [created_at]) has its prior value, and
    [updated_at] is the clock reading taken by the update, whichever
    fields are supplied; [updated_at] has strictly increased exactly
    when that reading is later than the prior value.  The other rows
    and the row count are as before. *)
Theorem update_task_sets_supplied_fields
    w task_id title description status t :
  get_task_by_id task_id w = Return (Some t) w ->
  exists t' w',
    update_task task_id title description status w = Return (Some t') w' /\
    get_task_by_id task_id w' = Return (Some t') w' /\
    Task.title t' = default (Task.title t) title /\
    Task.description t' =
      match description with
      | Some v => Some v
      | None => Task.description t
      end /\
    Task.status t' = default (Task.status t) status /\
    Task.id t' = Task.id t /\
    Task.created_at t' = Task.created_at t /\
    Task.updated_at t' = clock w (ticks w) /\
    (Task.updated_at t < Task.updated_at t'
       <-> Task.updated_at t < clock w (ticks w)) /\
    (forall k, k <> task_id ->
       find_row k (rows (database w')) = find_row k (rows (database w))) /\
    length (rows (database w')) = length (rows (database w)).
Proof.
  intros Hget. injection Hget as Hget.
  destruct (find_row_Some _ _ _ Hget) as [_ Hid].
  pose proof (update_task_found w task_id title description status t Hget)
    as Hrun.
  cbn zeta in Hrun. eexists _, _. split; [exact Hrun|].
  split; [exact (update_task_found_get _ _ _ _ _ _ _ _ Hget Hrun)|].
  autorewrite with updated_row. cbn [database rows]. rewrite length_fmap.
  do 7 (split; [done|]). split; [|done].
  intros k Hk. apply find_row_overwrite_ne; [done|].
  by autorewrite with updated_row.
Qed.

Lemma update_task_sets_supplied_fields_witness :
  get_task_by_id 1 one_task_world = Return (Some first_task) one_task_world /\
  exists t' w',
    update_task 1 None None (Some "done"%string) one_task_world
      = Return (Some t') w' /\
    get_task_by_id 1 w' = Return (Some t') w' /\
    Task.title t' = "A"%string /\
    Task.description t' = Some "first"%string /\
    Task.status t' = "done"%string /\
    Task.id t' = Some 1 /\
    Task.created_at t' = 1000 /\
    Task.updated_at t' = 1002 /\
    (1001 < Task.updated_at t' <-> 1001 < 1002) /\
    (forall k, k <> 1 ->
       find_row k (rows (database w'))
       = find_row k (rows (database one_task_world))) /\
    length (rows (database w')) = 1%nat.
Proof.
  assert (H : get_task_by_id 1 one_task_world
              = Return (Some first_task) one_task_world) by reflexivity.
  split; [exact H|].
  exact (update_task_sets_supplied_fields one_task_world 1 None None
           (Some "done"%string) first_task H).
Defined.

(** C1 as stated fails: a task is created, the wall clock is set back,
    and the update that follows (one field supplied) stores an
    [updated_at] below the prior one. *)
Lemma update_task_updated_at_can_decrease :
  create_task "A" None "pending" (boot set_back_clock)
    = Return task_before_set_back world_before_set_back /\
  update_task 1 None None (Some "done"%string) world_before_set_back
    = Return (Some task_after_set_back) world_after_set_back /\
  ~ (Task.updated_at task_before_set_back
     < Task.updated_at task_after_set_back).
Proof.
  split; [reflexivity|]. split; [reflexivity|]. cbn. lia.
Qed.

(** The guard of the PUT handler lets the request through exactly when
    some supplied field is a non-empty string. *)
Lemma update_existing_task_guard w task_id d :
  update_existing_task task_id d w
    = Raise (HTTPException HTTP_400_BAD_REQUEST) w
  <-> truthy (upd_title d) = false /\ truthy (upd_description d) = false
      /\ truthy (upd_status d) = false.
Proof.
  unfold update_existing_task, any, existsb.
  destruct (truthy (upd_title d)), (truthy (upd_description d)),
    (truthy (upd_status d)); cbn [orb negb].
  8: { unfold raise. tauto. }
  all: split; [|intros (?&?&?); discriminate].
  all: unfold mbind, M_bind;
    destruct (find_row task_id (rows (database w))) eqn:Hg;
    [rewrite (update_task_found _ _ _ _ _ _ Hg)
    |rewrite (update_task_missing _ _ _ _ _ Hg)];
    cbn; unfold raise, mret, M_ret, HTTP_400_BAD_REQUEST, HTTP_404_NOT_FOUND;
    intros [=].
Qed.

(** Past the guard, the handler answers 200 with the updated task when
    the id is stored and 404 when it is not. *)
Lemma update_existing_task_past_guard w task_id d :
  any [truthy (upd_title d); truthy (upd_description d);
       truthy (upd_status d)] = true ->
  match find_row task_id (rows (database w)) with
  | Some t =>
      exists t' w',
        update_existing_task task_id d w = Return t' w' /\
        update_task task_id (upd_title d) (upd_description d) (upd_status d) w
          = Return (Some t') w'
  | None =>
      update_existing_task task_id d w
        = Raise (HTTPException HTTP_404_NOT_FOUND) w
  end.
Proof.
  intros Hany. unfold update_existing_task. rewrite Hany. cbn [negb].
  unfold mbind, M_bind.
  destruct (find_row task_id (rows (database w))) as [t|] eqn:Hget.
  - rewrite (update_task_found _ _ _ _ _ _ Hget). cbn zeta.
    eexists _, _. split; reflexivity.
  - by rewrite (update_task_missing _ _ _ _ _ Hget).
Qed.

(** C2 (the code at the failing input): the table holds task 1; a PUT on
    it whose body has the single field [description], supplied as the
    empty string, passes validation and is answered 400 by the handler,
    with the world untouched.  The repository, called with the same
    arguments, does clear the description. *)
Theorem update_existing_task_rejects_empty_description :
  TaskUpdate_valid clear_description = true /\
  is_Some (find_row 1 (rows (database one_task_world))) /\
  update_existing_task 1 clear_description one_task_world
    = Raise (HTTPException HTTP_400_BAD_REQUEST) one_task_world /\
  status_code_of (update_existing_task 1 clear_description one_task_world)
    = 400 /\
  exists t' w',
    update_task 1 (upd_title clear_description)
      (upd_description clear_description) (upd_status clear_description)
      one_task_world = Return (Some t') w' /\
    Task.description t' = Some EmptyString.
Proof.
  split; [reflexivity|]. split; [by eexists|].
  split; [reflexivity|]. split; [reflexivity|].
  eexists _, _. split; [by apply update_task_found|]. reflexivity.
Qed.

(** C3 (as amended): a create on a well-formed table returns the stored
    row, whose id is non-null (the key drawn from the generator, which
    no other row carries) and whose fields are the arguments;
    [created_at] and [updated_at] are two successive readings of the
    clock, [created_at] first, so they are equal exactly when the clock
    returns the same instant twice and ordered whenever the second
    reading is not before the first. *)
Theorem create_task_stamps_two_readings w title description status :
  Database_ok (database w) ->
  exists t w',
    create_task title description status w = Return t w' /\
    get_task_by_id (sequence (database w)) w' = Return (Some t) w' /\
    Task.id t = Some (sequence (database w)) /\
    Task.id t <> None /\
    (forall r, r ∈ rows (database w) -> Task.id r <> Task.id t) /\
    Task.title t = title /\
    Task.description t = description /\
    Task.status t = status /\
    Task.created_at t = clock w (ticks w) /\
    Task.updated_at t = clock w (S (ticks w)) /\
    (Task.created_at t = Task.updated_at t
       <-> clock w (ticks w) = clock w (S (ticks w))) /\
    (clock w (ticks w) <= clock w (S (ticks w))
       -> Task.created_at t <= Task.updated_at t).
Proof.
  intros Hok. pose proof (Database_ok_fresh _ Hok) as Hfresh.
  eexists _, _.
  split; [by apply create_task_inserts|]. cbn zeta. split.
  { unfold get_task_by_id, Session.get. cbn [database rows].
    rewrite find_row_app, Hfresh, find_row_cons.
    cbn [Task.id]. by rewrite decide_True. }
  cbn [Task.id Task.title Task.description Task.status Task.created_at
       Task.updated_at].
  do 2 (split; [done|]). split; [|done].
  intros r Hr. by apply (proj1 (find_row_None _ _) Hfresh).
Qed.

Lemma create_task_stamps_two_readings_witness :
  Database_ok (database (boot steady_clock)) /\
  exists t w',
    create_task "A" None create_task_status_default (boot steady_clock)
      = Return t w' /\
    get_task_by_id 1 w' = Return (Some t) w' /\
    Task.id t = Some 1 /\
    Task.id t <> None /\
    (forall r, r ∈ rows (database (boot steady_clock)) ->
       Task.id r <> Task.id t) /\
    Task.title t = "A"%string /\
    Task.description t = None /\
    Task.status t = "pending"%string /\
    Task.created_at t = 1000 /\
    Task.updated_at t = 1001 /\
    (Task.created_at t = Task.updated_at t <-> 1000 = 1001) /\
    (1000 <= 1001 -> Task.created_at t <= Task.updated_at t).
Proof.
  split; [exact empty_database_ok|].
  exact (create_task_stamps_two_readings (boot steady_clock) "A" None
           create_task_status_default empty_database_ok).
Defined.

(** C3 as stated fails: with a clock that advances between two
    readings, a valid create on the empty table returns a task whose
    [created_at] differs from its [updated_at]. *)
Lemma create_task_stamps_differ :
  create_task "A" None create_task_status_default (boot steady_clock)
    = Return task_under_steady_clock world_under_steady_clock /\
  Task.created_at task_under_steady_clock
    <> Task.updated_at task_under_steady_clock.
Proof. split; [reflexivity | discriminate]. Qed.

(** C4: an update on an id (one the driver accepts) that no row
    carries returns [None] (the "not found" signal) and leaves the
    world as it was: the same database (same rows, same row count) and
    not even a clock reading taken. *)
Theorem update_task_unknown_id_changes_nothing
    w task_id title description status :
  int64 task_id ->
  (forall r, r ∈ rows (database w) -> Task.id r <> Some task_id) ->
  exists w',
    update_task task_id title description status w = Return None w' /\
    w' = w /\
    rows (database w') = rows (database w) /\
    length (rows (database w')) = length (rows (database w)).
Proof.
  intros _ Habsent. exists w. split; [|done].
  apply update_task_missing. by apply find_row_None.
Qed.

Lemma update_task_unknown_id_changes_nothing_witness :
  int64 7 /\
  (forall r, r ∈ rows (database one_task_world) -> Task.id r <> Some 7) /\
  exists w',
    update_task 7 (Some "B"%string) None (Some "done"%string) one_task_world
      = Return None w' /\
    w' = one_task_world /\
    rows (database w') = rows (database one_task_world) /\
    length (rows (database w')) = length (rows (database one_task_world)).
Proof.
  assert (H0 : int64 7) by (unfold int64; lia).
  assert (H : forall r, r ∈ rows (database one_task_world) ->
                        Task.id r <> Some 7).
  { intros r Hr. apply list_elem_of_singleton in Hr. subst r. discriminate. }
  split; [exact H0|]. split; [exact H|].
  exact (update_task_unknown_id_changes_nothing one_task_world 7
           (Some "B"%string) None (Some "done"%string) H0 H).
Defined.

(** C5: on a table whose rows all carry their primary key,
    [delete_all_tasks] returns the number of rows the table held when
    it was called (the length of the list it selected before deleting
    anything) and leaves the table empty; on an empty table the count
    is 0. *)
Theorem delete_all_tasks_counts_then_empties w :
  Forall (fun r => is_Some (Task.id r)) (rows (database w)) ->
  exists w',
    delete_all_tasks w
      = Return (Z.of_nat (length (rows (database w)))) w' /\
    rows (database w') = [] /\
    (rows (database w) = [] -> delete_all_tasks w = Return 0 w).
Proof.
  intros Hkeys. rewrite (delete_all_tasks_outcome _ Hkeys).
  eexists. split; [reflexivity|]. split; [reflexivity|].
  destruct w as [[T s] c n]. cbn. by intros ->.
Qed.

Lemma delete_all_tasks_counts_then_empties_witness :
  Forall (fun r => is_Some (Task.id r)) (rows (database three_task_world)) /\
  exists w',
    delete_all_tasks three_task_world = Return 3 w' /\
    rows (database w') = [] /\
    (rows (database three_task_world) = [] ->
       delete_all_tasks three_task_world = Return 0 three_task_world).
Proof.
  assert (H : Forall (fun r => is_Some (Task.id r))
                (rows (database three_task_world))).
  { repeat constructor; by eexists. }
  split; [exact H|].
  exact (delete_all_tasks_counts_then_empties three_task_world H).
Defined.

(** The scenario of the spec: delete-all on the empty store returns 0. *)
Example delete_all_tasks_on_empty_store :
  delete_all_tasks (boot steady_clock) = Return 0 (boot steady_clock).
Proof. reflexivity. Qed.

(** C6 (as amended): [get_tasks_by_status x] returns, without an error
    and without changing anything, exactly the rows whose status is the
    string [x] among those [get_all_tasks] returns from offset 0 under
    any limit (one the driver accepts) that is at least the number of
    stored rows (the default limit 100 when at most 100 rows are
    stored); when no such row has status [x] the result is the empty
    list. *)
Theorem get_tasks_by_status_filters_full_listing w x lim :
  int64 lim ->
  Z.of_nat (length (rows (database w))) <= lim ->
  exists all matching,
    get_all_tasks get_all_tasks_skip_default lim w = Return all w /\
    get_tasks_by_status x w = Return matching w /\
    all = rows (database w) /\
    matching = filter (fun r => Task.status r = x) all /\
    ((forall r, r ∈ all -> Task.status r <> x) -> matching = []).
Proof.
  intros _ Hlim. eexists _, _.
  split; [apply get_all_tasks_slice; lia|].
  split; [apply get_tasks_by_status_filter|].
  unfold get_all_tasks_skip_default. cbn [Z.to_nat]. rewrite drop_0.
  rewrite take_ge by lia. repeat split.
  intros Hnone. apply elem_of_nil_inv. intros r Hr.
  apply list_elem_of_filter in Hr as [Hx Hin]. by apply (Hnone r).
Qed.

Lemma get_tasks_by_status_filters_full_listing_witness :
  int64 get_all_tasks_limit_default /\
  Z.of_nat (length (rows (database three_task_world)))
    <= get_all_tasks_limit_default /\
  exists all matching,
    get_all_tasks get_all_tasks_skip_default get_all_tasks_limit_default
      three_task_world = Return all three_task_world /\
    get_tasks_by_status "pending" three_task_world
      = Return matching three_task_world /\
    all = rows (database three_task_world) /\
    matching = filter (fun r => Task.status r = "pending"%string) all /\
    ((forall r, r ∈ all -> Task.status r <> "pending"%string)
       -> matching = []).
Proof.
  assert (H0 : int64 get_all_tasks_limit_default)
    by (unfold int64, get_all_tasks_limit_default; lia).
  assert (H : Z.of_nat (length (rows (database three_task_world)))
              <= get_all_tasks_limit_default)
    by (unfold get_all_tasks_limit_default; cbn; lia).
  split; [exact H0|]. split; [exact H|].
  exact (get_tasks_by_status_filters_full_listing three_task_world
           "pending" get_all_tasks_limit_default H0 H).
Defined.

(** C6 as stated fails: with 101 stored tasks, the default listing stops
    after 100 rows and holds no completed task, while
    [get_tasks_by_status "completed"] returns the 101st. *)
Lemma get_tasks_by_status_beyond_default_limit :
  exists all matching,
    get_all_tasks get_all_tasks_skip_default get_all_tasks_limit_default
      crowded_world = Return all crowded_world /\
    get_tasks_by_status "completed" crowded_world
      = Return matching crowded_world /\
    length all = 100%nat /\
    matching = [Task.new (Some 101) "task" None "completed" 1000 1000] /\
    filter (fun r => Task.status r = "completed"%string) all = [] /\
    matching <> filter (fun r => Task.status r = "completed"%string) all.
Proof.
  eexists _, _.
  split; [apply get_all_tasks_slice; by unfold get_all_tasks_limit_default|].
  split; [apply get_tasks_by_status_filter|].
  split; [by vm_compute|]. split; [by vm_compute|].
  assert (E : filter (fun r => Task.status r = "completed"%string)
                (take (Z.to_nat get_all_tasks_limit_default)
                   (drop (Z.to_nat get_all_tasks_skip_default)
                      (rows (database crowded_world)))) = [])
    by (by vm_compute).
  split; [exact E|]. rewrite E. by vm_compute.
Qed.

(** The scenario of the spec: of three tasks with statuses pending,
    pending and completed, two are listed as pending. *)
Example get_tasks_by_status_two_pending :
  exists l, get_tasks_by_status "pending" three_task_world
              = Return l three_task_world /\ length l = 2%nat.
Proof. eexists. split; reflexivity. Qed.

(** C7: for an id the driver accepts, [delete_task] returns [True]
    exactly when a row carries the id; [False] leaves the world as it
    was; afterwards the table holds the rows it held except those with
    this id, and [get_task_by_id] on the same id returns [None]. *)
Theorem delete_task_removes_the_row w task_id :
  int64 task_id ->
  exists b w',
    delete_task task_id w = Return b w' /\
    (b = true <->
       exists r, r ∈ rows (database w) /\ Task.id r = Some task_id) /\
    (b = false -> w' = w) /\
    rows (database w')
      = filter (fun r => Task.id r <> Some task_id) (rows (database w)) /\
    get_task_by_id task_id w' = Return None w'.
Proof.
  intros _. rewrite delete_task_outcome.
  destruct (find_row task_id (rows (database w))) as [t|] eqn:Hget.
  - destruct (find_row_Some _ _ _ Hget) as [Hin Hid].
    eexists _, _. split; [reflexivity|].
    unfold get_task_by_id, Session.get, with_database.
    cbn [database rows sequence].
    split; [split; [eauto | done] |].
    split; [discriminate |]. split; [reflexivity |].
    by rewrite find_row_delete.
  - exists false, w. split; [reflexivity|].
    split; [split; [discriminate|] |].
    { intros (r & Hin & Hid).
      destruct (proj1 (find_row_None _ _) Hget r Hin Hid). }
    split; [done|]. split; [by rewrite filter_other_keys_id|].
    unfold get_task_by_id, Session.get. by rewrite Hget.
Qed.

Lemma delete_task_removes_the_row_witness :
  int64 2 /\
  exists b w',
    delete_task 2 three_task_world = Return b w' /\
    (b = true <->
       exists r, r ∈ rows (database three_task_world) /\ Task.id r = Some 2) /\
    (b = false -> w' = three_task_world) /\
    rows (database w')
      = filter (fun r => Task.id r <> Some 2)
          (rows (database three_task_world)) /\
    get_task_by_id 2 w' = Return None w'.
Proof.
  assert (H0 : int64 2) by (unfold int64; lia).
  split; [exact H0|].
  exact (delete_task_removes_the_row three_task_world 2 H0).
Defined.

(** The scenario of the spec: delete of the stored task 1 returns
    [True] and a lookup of 1 then finds nothing. *)
Example delete_task_then_get :
  (delete_task 1 ;; get_task_by_id 1) one_task_world
  = Return None
      {| database := {| rows := []; sequence := 2 |};
         clock := steady_clock; ticks := 2 |}.
Proof. reflexivity. Qed.

(** C8: on a well-formed table, for [skip >= 0] (one the driver
    accepts) and [limit] in [1, 1000], [get_all_tasks] changes nothing
    and returns the rows in ascending id order, the order of the
    table: entry [i] of the result (for [i < limit]) is entry
    [skip + i] of the table, and the result has
    [min limit (rows - skip)] entries. *)
Theorem get_all_tasks_pages_by_id w skip lim :
  Database_ok (database w) ->
  0 <= skip ->
  int64 skip ->
  1 <= lim <= 1000 ->
  exists page,
    get_all_tasks skip lim w = Return page w /\
    StronglySorted key_lt (rows (database w)) /\
    StronglySorted key_lt page /\
    (forall i : nat, (i < Z.to_nat lim)%nat ->
       page !! i = rows (database w) !! (Z.to_nat skip + i)%nat) /\
    length page
      = Nat.min (Z.to_nat lim)
          (length (rows (database w)) - Z.to_nat skip)%nat.
Proof.
  intros [_ Hord] Hskip _ Hlim. eexists.
  split; [apply get_all_tasks_slice; lia|].
  split; [exact Hord|]. split; [|split].
  - eapply StronglySorted_sublist; [|exact Hord].
    etrans; [apply sublist_take | apply sublist_drop].
  - intros i Hi. by rewrite lookup_take_lt, lookup_drop.
  - by rewrite length_take, length_drop.
Qed.

Lemma get_all_tasks_pages_by_id_witness :
  Database_ok (database three_task_world) /\
  0 <= 1 /\
  int64 1 /\
  1 <= 1 <= 1000 /\
  exists page,
    get_all_tasks 1 1 three_task_world = Return page three_task_world /\
    StronglySorted key_lt (rows (database three_task_world)) /\
    StronglySorted key_lt page /\
    (forall i : nat, (i < Z.to_nat 1)%nat ->
       page !! i = rows (database three_task_world) !! (Z.to_nat 1 + i)%nat) /\
    length page
      = Nat.min (Z.to_nat 1)
          (length (rows (database three_task_world)) - Z.to_nat 1)%nat.
Proof.
  assert (H0 : 0 <= 1) by lia.
  assert (Hr : int64 1) by (unfold int64; lia).
  assert (H1 : 1 <= 1 <= 1000) by lia.
  split; [exact three_task_world_ok|]. split; [exact H0|].
  split; [exact Hr|]. split; [exact H1|].
  exact (get_all_tasks_pages_by_id three_task_world 1 1
           three_task_world_ok H0 Hr H1).
Defined.

(** The scenario of the spec: of three tasks, [skip=1, limit=1] returns
    the second. *)
Example get_all_tasks_second_of_three :
  get_all_tasks 1 1 three_task_world
  = Return [Task.new (Some 2) "B" None "pending" 1002 1003] three_task_world.
Proof. reflexivity. Qed.

(** C9 (as amended): provided the clock is never set back, every run of
    create, update, delete and delete-all calls from the empty table
    returns, every stored task then has [created_at <= updated_at], and
    any further such call keeps that and leaves the [created_at] of
    every task it does not delete as it was. *)
Theorem created_at_fixed_and_below_updated_at c calls :
  nondecreasing c ->
  exists w,
    run calls (boot c) = Return tt w /\
    Forall ordered (rows (database w)) /\
    forall call, exists w',
      perform call w = Return tt w' /\
      Forall ordered (rows (database w')) /\
      created_at_kept w w'.
Proof.
  intros Hc.
  destruct (run_steps calls (boot c) empty_database_ok)
    as (w & Hrun & [Hdb Hcw Hst]).
  specialize (Hst Hc (Forall_nil_2 _)).
  assert (Hc' : nondecreasing (clock w)) by (rewrite Hcw; exact Hc).
  exists w. split; [exact Hrun|]. split.
  { eapply Forall_impl; [exact Hst|]. by intros r [Ho _]. }
  intros call.
  destruct (perform_step w Hdb call) as (w' & Hp & [_ _ Hst'] & Hkept).
  exists w'. split; [exact Hp|]. split; [|exact Hkept].
  eapply Forall_impl; [exact (Hst' Hc' Hst)|]. by intros r [Ho _].
Qed.

Lemma created_at_fixed_and_below_updated_at_witness :
  nondecreasing steady_clock /\
  exists w,
    run [CreateTask "A" None "pending";
         UpdateTask 1 None None (Some "done"%string)] (boot steady_clock)
      = Return tt w /\
    Forall ordered (rows (database w)) /\
    forall call, exists w',
      perform call w = Return tt w' /\
      Forall ordered (rows (database w')) /\
      created_at_kept w w'.
Proof.
  assert (H : nondecreasing steady_clock)
    by (intros n; unfold steady_clock; lia).
  split; [exact H|].
  exact (created_at_fixed_and_below_updated_at steady_clock
           [CreateTask "A" None "pending";
            UpdateTask 1 None None (Some "done"%string)] H).
Defined.

(** C9 as stated fails: a task is created, the wall clock is set back,
    the task is updated; it is then stored with [created_at] above
    [updated_at]. *)
Lemma created_at_above_updated_at_after_set_back :
  run [CreateTask "A" None "pending";
       UpdateTask 1 None None (Some "done"%string)] (boot set_back_clock)
    = Return tt world_after_set_back /\
  get_task_by_id 1 world_after_set_back
    = Return (Some task_after_set_back) world_after_set_back /\
  ~ Task.created_at task_after_set_back
    <= Task.updated_at task_after_set_back /\
  ~ Forall ordered (rows (database world_after_set_back)).
Proof.
  split; [reflexivity|]. split; [reflexivity|]. split; [cbn; lia|].
  intros H. apply Forall_cons in H as [H _]. unfold ordered in H. cbn in H. lia.
Qed.

(** C10: when the stored task has a description, it still has one after
    any [update_task] on it: the argument [None] leaves the field alone
    and any other argument is a string (possibly empty), never null. *)
Theorem update_task_never_nulls_description
    w task_id title description status t :
  get_task_by_id task_id w = Return (Some t) w ->
  Task.description t <> None ->
  exists t' w',
    update_task task_id title description status w = Return (Some t') w' /\
    get_task_by_id task_id w' = Return (Some t') w' /\
    Task.description t' <> None /\
    (description = None -> Task.description t' = Task.description t) /\
    (forall v, description = Some v -> Task.description t' = Some v).
Proof.
  intros Hget Hdesc. injection Hget as Hget.
  pose proof (update_task_found w task_id title description status t Hget)
    as Hrun.
  cbn zeta in Hrun. eexists _, _. split; [exact Hrun|].
  split; [exact (update_task_found_get _ _ _ _ _ _ _ _ Hget Hrun)|].
  autorewrite with updated_row.
  destruct description as [v|]; repeat split; done.
Qed.

Lemma update_task_never_nulls_description_witness :
  get_task_by_id 1 one_task_world = Return (Some first_task) one_task_world /\
  Task.description first_task <> None /\
  exists t' w',
    update_task 1 None (Some EmptyString) None one_task_world
      = Return (Some t') w' /\
    get_task_by_id 1 w' = Return (Some t') w' /\
    Task.description t' <> None /\
    (Some EmptyString = None ->
       Task.description t' = Task.description first_task) /\
    (forall v, Some EmptyString = Some v -> Task.description t' = Some v).
Proof.
  assert (H1 : get_task_by_id 1 one_task_world
               = Return (Some first_task) one_task_world) by reflexivity.
  assert (H2 : Task.description first_task <> None) by discriminate.
  split; [exact H1|]. split; [exact H2|].
  exact (update_task_never_nulls_description one_task_world 1 None
           (Some EmptyString) None first_task H1 H2).
Defined.

(** * Further properties of the repository *)

(** X1: a create on a well-formed table adds exactly one row, the
    returned task, after the rows already stored, and every stored task
    is still found, unchanged, under its id. *)
Theorem create_task_appends_one_row w title description status :
  Database_ok (database w) ->
  exists t w',
    create_task title description status w = Return t w' /\
    rows (database w') = rows (database w) ++ [t] /\
    length (rows (database w')) = S (length (rows (database w))) /\
    (forall k r,
       get_task_by_id k w = Return (Some r) w ->
       get_task_by_id k w' = Return (Some r) w') /\
    get_all_tasks 0 (Z.of_nat (length (rows (database w))) + 1) w'
      = Return (rows (database w) ++ [t]) w'.
Proof.
  intros Hdb. eexists _, _. split; [by apply create_task_inserts|].
  cbn zeta. cbn [database rows]. split; [reflexivity|].
  split; [rewrite length_app; cbn; lia|]. split.
  - intros k r [= Hr]. unfold get_task_by_id, Session.get.
    cbn [database rows]. by rewrite find_row_app, Hr.
  - rewrite get_all_tasks_slice by lia. cbn [database rows Z.to_nat].
    rewrite drop_0, take_ge; [done|]. rewrite length_app. cbn. lia.
Qed.

Lemma create_task_appends_one_row_witness :
  Database_ok (database three_task_world) /\
  exists t w',
    create_task "D" None "pending" three_task_world = Return t w' /\
    rows (database w') = rows (database three_task_world) ++ [t] /\
    length (rows (database w')) = 4%nat /\
    (forall k r,
       get_task_by_id k three_task_world = Return (Some r) three_task_world ->
       get_task_by_id k w' = Return (Some r) w') /\
    get_all_tasks 0 (Z.of_nat (length (rows (database three_task_world))) + 1)
      w' = Return (rows (database three_task_world) ++ [t]) w'.
Proof.
  split; [exact three_task_world_ok|].
  exact (create_task_appends_one_row three_task_world "D" None "pending"
           three_task_world_ok).
Defined.

(** X2: successive pages tile the listing: for offsets and limits the
    driver accepts, the page of [a] rows from [skip] followed by the
    page of [b] rows from [skip + a] is the page of [a + b] rows from
    [skip]; no row is lost or repeated between pages. *)
Theorem get_all_tasks_pages_tile w skip a b :
  0 <= skip -> 0 <= a -> 0 <= b ->
  int64 (skip + a) -> int64 (a + b) ->
  exists p1 p2,
    get_all_tasks skip a w = Return p1 w /\
    get_all_tasks (skip + a) b w = Return p2 w /\
    get_all_tasks skip (a + b) w = Return (p1 ++ p2) w.
Proof.
  intros Hs Ha Hb _ _. eexists _, _.
  rewrite !get_all_tasks_slice by lia. split; [done|]. split; [done|].
  rewrite !Z2Nat.inj_add by lia.
  by rewrite <- drop_drop, take_take_drop.
Qed.

Lemma get_all_tasks_pages_tile_witness :
  0 <= 0 /\ 0 <= 1 /\ 0 <= 2 /\ int64 (0 + 1) /\ int64 (1 + 2) /\
  exists p1 p2,
    get_all_tasks 0 1 three_task_world = Return p1 three_task_world /\
    get_all_tasks (0 + 1) 2 three_task_world = Return p2 three_task_world /\
    get_all_tasks 0 (1 + 2) three_task_world
      = Return (p1 ++ p2) three_task_world.
Proof.
  assert (H0 : 0 <= 0) by lia. assert (H1 : 0 <= 1) by lia.
  assert (H2 : 0 <= 2) by lia.
  assert (H3 : int64 (0 + 1)) by (unfold int64; lia).
  assert (H4 : int64 (1 + 2)) by (unfold int64; lia).
  split; [exact H0|]. split; [exact H1|]. split; [exact H2|].
  split; [exact H3|]. split; [exact H4|].
  exact (get_all_tasks_pages_tile three_task_world 0 1 2 H0 H1 H2 H3 H4).
Defined.

(** X3: a listing that starts at or after the number of stored rows
    returns the empty list, not an error, for every offset the driver
    accepts and every limit from 0 up that it accepts. *)
Theorem get_all_tasks_past_the_end w skip limit :
  Z.of_nat (length (rows (database w))) <= skip ->
  int64 skip ->
  0 <= limit ->
  int64 limit ->
  get_all_tasks skip limit w = Return [] w.
Proof.
  intros Hskip _ Hlimit _. rewrite get_all_tasks_slice by done.
  rewrite drop_ge by lia. by rewrite take_nil.
Qed.

Lemma get_all_tasks_past_the_end_witness :
  Z.of_nat (length (rows (database three_task_world))) <= 3 /\
  int64 3 /\
  0 <= 100 /\
  int64 100 /\
  get_all_tasks 3 100 three_task_world = Return [] three_task_world.
Proof.
  assert (H : Z.of_nat (length (rows (database three_task_world))) <= 3)
    by (cbn; lia).
  assert (Hr : int64 3) by (unfold int64; lia).
  assert (H' : 0 <= 100) by lia.
  assert (Hr' : int64 100) by (unfold int64; lia).
  split; [exact H|]. split; [exact Hr|]. split; [exact H'|].
  split; [exact Hr'|].
  exact (get_all_tasks_past_the_end three_task_world 3 100 H Hr H' Hr').
Defined.

Lemma elem_of_overwrite k task (l : list Task) r :
  r ∈ Session.overwrite k task <$> l ->
  r = task \/ (r ∈ l /\ Task.id r <> Some k).
Proof.
  intros Hr. apply list_elem_of_fmap in Hr as (r0 & -> & Hr0).
  unfold Session.overwrite. destruct (decide (Task.id r0 = Some k)); auto.
Qed.

Lemma elem_of_overwrite_other k task (l : list Task) r :
  r ∈ l -> Task.id r <> Some k -> r ∈ Session.overwrite k task <$> l.
Proof.
  intros Hr Hid. apply list_elem_of_fmap. exists r.
  by rewrite overwrite_miss.
Qed.

(** X4: an update that supplies a status moves the task between the
    status listings: afterwards it is listed under the new status and
    under no other, and the listings hold the same other tasks as
    before. *)
Theorem update_task_status_moves_listing
    w task_id title description status t :
  get_task_by_id task_id w = Return (Some t) w ->
  exists t' w',
    update_task task_id title description (Some status) w
      = Return (Some t') w' /\
    (exists l, get_tasks_by_status status w' = Return l w' /\ t' ∈ l) /\
    forall x l l',
      get_tasks_by_status x w = Return l w ->
      get_tasks_by_status x w' = Return l' w' ->
      (x <> status -> forall r, r ∈ l' -> Task.id r <> Some task_id) /\
      (forall r, Task.id r <> Some task_id -> r ∈ l' <-> r ∈ l).
Proof.
  intros [= Hget]. destruct (find_row_Some _ _ _ Hget) as [_ Hid].
  pose proof (update_task_found w task_id title description (Some status)
                t Hget) as Hrun.
  cbn zeta in Hrun. eexists _, _. split; [exact Hrun|].
  pose proof (update_task_found_get _ _ _ _ _ _ _ _ Hget Hrun) as [= Hget'].
  set (t' := updated_row title description (Some status) (clock w (ticks w)) t)
    in *.
  assert (Hst : Task.status t' = status)
    by (unfold t'; by rewrite updated_row_status).
  assert (Hid' : Task.id t' = Some task_id)
    by (unfold t'; by rewrite updated_row_id).
  rewrite !get_tasks_by_status_filter. cbn [database rows] in *. split.
  - eexists. split; [reflexivity|]. apply list_elem_of_filter.
    split; [exact Hst|]. by destruct (find_row_Some _ _ _ Hget').
  - intros x l l'. rewrite !get_tasks_by_status_filter.
    cbn [database rows]. intros [= <-] [= <-]. split.
    + intros Hx r Hr. apply list_elem_of_filter in Hr as [Hrx Hr].
      apply elem_of_overwrite in Hr as [->|[_ Hne]]; [congruence | done].
    + intros r Hne. rewrite !list_elem_of_filter. split; intros [Hrx Hr].
      * split; [done|].
        apply elem_of_overwrite in Hr as [->|[Hr _]]; [congruence | done].
      * split; [done|]. by apply elem_of_overwrite_other.
Qed.

Lemma update_task_status_moves_listing_witness :
  get_task_by_id 1 one_task_world = Return (Some first_task) one_task_world /\
  exists t' w',
    update_task 1 None None (Some "done"%string) one_task_world
      = Return (Some t') w' /\
    (exists l, get_tasks_by_status "done" w' = Return l w' /\ t' ∈ l) /\
    forall x l l',
      get_tasks_by_status x one_task_world = Return l one_task_world ->
      get_tasks_by_status x w' = Return l' w' ->
      (x <> "done"%string -> forall r, r ∈ l' -> Task.id r <> Some 1) /\
      (forall r, Task.id r <> Some 1 -> r ∈ l' <-> r ∈ l).
Proof.
  assert (H : get_task_by_id 1 one_task_world
              = Return (Some first_task) one_task_world) by reflexivity.
  split; [exact H|].
  exact (update_task_status_moves_listing one_task_world 1 None None
           "done" first_task H).
Defined.

Lemma sorted_head_unique r l k :
  StronglySorted key_lt (r :: l) -> Task.id r = Some k -> find_row k l = None.
Proof.
  rewrite StronglySorted_cons. intros [Hr _] Hid.
  apply find_row_None. intros s Hs Hsid.
  rewrite Forall_forall in Hr. specialize (Hr s Hs).
  unfold key_lt in Hr. rewrite Hid, Hsid in Hr. lia.
Qed.

Lemma length_delete_one l k :
  StronglySorted key_lt l -> is_Some (find_row k l) ->
  S (length (filter (fun r => Task.id r <> Some k) l)) = length l.
Proof.
  induction l as [|r l IH]; intros Hord Hfound.
  - by destruct Hfound.
  - rewrite find_row_cons in Hfound.
    destruct (decide (Task.id r = Some k)) as [E|E].
    + rewrite filter_cons_False by tauto.
      by rewrite (filter_other_keys_id _ _ (sorted_head_unique _ _ _ Hord E)).
    + rewrite filter_cons_True by done. cbn. f_equal. apply IH; [|done].
      by apply StronglySorted_cons in Hord as [_ Hord].
Qed.

(** X5: on a well-formed table, deleting a stored id removes exactly
    one row and keeps the remaining rows in their order; deleting the
    same id again returns [False] and changes nothing. *)
Theorem delete_task_removes_exactly_one_row w task_id :
  Database_ok (database w) ->
  (exists r, r ∈ rows (database w) /\ Task.id r = Some task_id) ->
  exists w',
    delete_task task_id w = Return true w' /\
    S (length (rows (database w'))) = length (rows (database w)) /\
    rows (database w') `sublist_of` rows (database w) /\
    delete_task task_id w' = Return false w'.
Proof.
  intros [_ Hord] (r & Hr & Hid).
  pose proof (find_row_is_Some _ _ _ Hr Hid) as Hfound.
  rewrite delete_task_outcome. destruct Hfound as [t Hget]. rewrite Hget.
  eexists. split; [reflexivity|]. unfold with_database.
  cbn [database rows]. split; [|split].
  - apply length_delete_one; [done | by rewrite Hget].
  - apply sublist_filter.
  - rewrite delete_task_outcome. cbn [database rows].
    by rewrite find_row_delete.
Qed.

Lemma delete_task_removes_exactly_one_row_witness :
  Database_ok (database three_task_world) /\
  (exists r, r ∈ rows (database three_task_world) /\ Task.id r = Some 2) /\
  exists w',
    delete_task 2 three_task_world = Return true w' /\
    S (length (rows (database w')))
      = length (rows (database three_task_world)) /\
    rows (database w') `sublist_of` rows (database three_task_world) /\
    delete_task 2 w' = Return false w'.
Proof.
  assert (H : exists r, r ∈ rows (database three_task_world)
                        /\ Task.id r = Some 2).
  { eexists. split; [right; left | reflexivity]. }
  split; [exact three_task_world_ok|]. split; [exact H|].
  exact (delete_task_removes_exactly_one_row three_task_world 2
           three_task_world_ok H).
Defined.

(** X6: after [delete_all_tasks] (on a table whose rows carry their
    keys) nothing is left to read or to act on: every listing (for
    [skip] and [limit] from 0 up that the driver accepts, and for every
    status) is empty, every id the driver accepts is not found by
    lookup, update and delete, and a second [delete_all_tasks]
    returns 0. *)
Theorem delete_all_tasks_leaves_nothing w :
  Forall (fun r => is_Some (Task.id r)) (rows (database w)) ->
  exists n w',
    delete_all_tasks w = Return n w' /\
    (forall skip limit,
       0 <= skip -> 0 <= limit -> int64 skip -> int64 limit ->
       get_all_tasks skip limit w' = Return [] w') /\
    (forall x, get_tasks_by_status x w' = Return [] w') /\
    (forall k, int64 k -> get_task_by_id k w' = Return None w') /\
    (forall k title description status,
       int64 k ->
       update_task k title description status w' = Return None w') /\
    (forall k, int64 k -> delete_task k w' = Return false w') /\
    delete_all_tasks w' = Return 0 w'.
Proof.
  intros Hkeys. rewrite (delete_all_tasks_outcome _ Hkeys).
  eexists _, _. split; [reflexivity|]. unfold with_database.
  split; [|split; [|split; [|split; [|split]]]].
  - intros skip limit Hskip Hlimit _ _. rewrite get_all_tasks_slice by done.
    cbn [database rows]. by rewrite drop_nil, take_nil.
  - intros x. by rewrite get_tasks_by_status_filter.
  - done.
  - intros k title description status _. by apply update_task_missing.
  - intros k _. by rewrite delete_task_outcome.
  - rewrite delete_all_tasks_outcome by constructor. reflexivity.
Qed.

Lemma delete_all_tasks_leaves_nothing_witness :
  Forall (fun r => is_Some (Task.id r)) (rows (database three_task_world)) /\
  exists n w',
    delete_all_tasks three_task_world = Return n w' /\
    (forall skip limit,
       0 <= skip -> 0 <= limit -> int64 skip -> int64 limit ->
       get_all_tasks skip limit w' = Return [] w') /\
    (forall x, get_tasks_by_status x w' = Return [] w') /\
    (forall k, int64 k -> get_task_by_id k w' = Return None w') /\
    (forall k title description status,
       int64 k ->
       update_task k title description status w' = Return None w') /\
    (forall k, int64 k -> delete_task k w' = Return false w') /\
    delete_all_tasks w' = Return 0 w'.
Proof.
  split; [exact (keyed_of_Database_ok _ three_task_world_ok)|].
  exact (delete_all_tasks_leaves_nothing three_task_world
           (keyed_of_Database_ok _ three_task_world_ok)).
Defined.

(** X7: two updates of the same stored task compose field by field:
    each field ends with the value of the last update that supplied
    it, or its original value when neither did; [created_at] is
    untouched, [updated_at] is the reading taken by the second update,
    and the row count is as before. *)
Theorem update_task_twice_last_supplied_wins
    w task_id title1 description1 status1 title2 description2 status2 t :
  get_task_by_id task_id w = Return (Some t) w ->
  exists t1 w1 t2 w2,
    update_task task_id title1 description1 status1 w = Return (Some t1) w1 /\
    update_task task_id title2 description2 status2 w1
      = Return (Some t2) w2 /\
    Task.title t2 = default (default (Task.title t) title1) title2 /\
    Task.description t2 =
      match description2, description1 with
      | Some v, _ => Some v
      | None, Some v => Some v
      | None, None => Task.description t
      end /\
    Task.status t2 = default (default (Task.status t) status1) status2 /\
    Task.id t2 = Task.id t /\
    Task.created_at t2 = Task.created_at t /\
    Task.updated_at t2 = clock w (S (ticks w)) /\
    length (rows (database w2)) = length (rows (database w)).
Proof.
  intros [= Hget].
  pose proof (update_task_found w task_id title1 description1 status1 t Hget)
    as Hrun1.
  cbn zeta in Hrun1.
  pose proof (update_task_found_get _ _ _ _ _ _ _ _ Hget Hrun1) as [= Hget1].
  set (t1 := updated_row title1 description1 status1 (clock w (ticks w)) t)
    in *.
  set (w1 := {| database :=
                  {| rows := Session.overwrite task_id t1 <$> rows (database w);
                     sequence := sequence (database w) |};
                clock := clock w; ticks := S (ticks w) |}) in *.
  pose proof (update_task_found w1 task_id title2 description2 status2 t1
                Hget1) as Hrun2.
  cbn zeta in Hrun2. eexists _, _, _, _. split; [exact Hrun1|].
  split; [exact Hrun2|].
  unfold t1. autorewrite with updated_row. cbn [w1 database rows clock ticks].
  rewrite !length_fmap.
  destruct description1, description2; done.
Qed.

Lemma update_task_twice_last_supplied_wins_witness :
  get_task_by_id 1 one_task_world = Return (Some first_task) one_task_world /\
  exists t1 w1 t2 w2,
    update_task 1 (Some "B"%string) None None one_task_world
      = Return (Some t1) w1 /\
    update_task 1 None None (Some "done"%string) w1 = Return (Some t2) w2 /\
    Task.title t2 = "B"%string /\
    Task.description t2 = Some "first"%string /\
    Task.status t2 = "done"%string /\
    Task.id t2 = Some 1 /\
    Task.created_at t2 = 1000 /\
    Task.updated_at t2 = 1003 /\
    length (rows (database w2)) = 1%nat.
Proof.
  assert (H : get_task_by_id 1 one_task_world
              = Return (Some first_task) one_task_world) by reflexivity.
  split; [exact H|].
  exact (update_task_twice_last_supplied_wins one_task_world 1
           (Some "B"%string) None None None None (Some "done"%string)
           first_task H).
Defined.

(** X8: no update on an id the driver accepts, found or not, changes
    which id sits at which position of the table, and every row with
    another id stays as it is at its position: an update never adds,
    removes, renumbers or reorders rows. *)
Theorem update_task_keeps_every_row_in_place
    w task_id title description status :
  int64 task_id ->
  exists o w',
    update_task task_id title description status w = Return o w' /\
    Task.id <$> rows (database w') = Task.id <$> rows (database w) /\
    forall (i : nat) r,
      rows (database w) !! i = Some r -> Task.id r <> Some task_id ->
      rows (database w') !! i = Some r.
Proof.
  intros _.
  destruct (find_row task_id (rows (database w))) as [t|] eqn:Hget.
  - eexists _, _. split; [by apply update_task_found|]. cbn zeta.
    cbn [database rows].
    assert (Hid : Task.id (updated_row title description status
                             (clock w (ticks w)) t) = Some task_id).
    { rewrite updated_row_id. by destruct (find_row_Some _ _ _ Hget). }
    split.
    + rewrite <- list_fmap_compose. apply list_fmap_ext.
      intros i r _. cbn. by apply overwrite_id.
    + intros i r Hr Hne. rewrite list_lookup_fmap, Hr. cbn.
      by rewrite overwrite_miss.
  - exists None, w. by rewrite update_task_missing.
Qed.

Lemma update_task_keeps_every_row_in_place_witness :
  int64 2 /\
  exists o w',
    update_task 2 None None (Some "done"%string) three_task_world
      = Return o w' /\
    Task.id <$> rows (database w')
      = Task.id <$> rows (database three_task_world) /\
    forall (i : nat) r,
      rows (database three_task_world) !! i = Some r ->
      Task.id r <> Some 2 ->
      rows (database w') !! i = Some r.
Proof.
  assert (H0 : int64 2) by (unfold int64; lia).
  split; [exact H0|].
  exact (update_task_keeps_every_row_in_place three_task_world 2 None None
           (Some "done"%string) H0).
Defined.

(** * Properties of the endpoints *)

Lemma as_task_from_attributes t r :
  TaskResponse.from_attributes t = Some r -> as_task r = t.
Proof.
  unfold TaskResponse.from_attributes. destruct t as [[k|] ti de st cr up];
    cbn; [|discriminate].
  by intros [= <-].
Qed.

Lemma from_attributes_keyed t :
  is_Some (Task.id t) ->
  exists r, TaskResponse.from_attributes t = Some r /\ as_task r = t.
Proof.
  intros [k Hk]. unfold TaskResponse.from_attributes. rewrite Hk.
  eexists. split; [reflexivity|]. destruct t. cbn in *. by subst.
Qed.

Lemma mapM_from_attributes l :
  Forall (fun r => is_Some (Task.id r)) l ->
  exists rs,
    mapM TaskResponse.from_attributes l = Some rs /\ as_task <$> rs = l.
Proof.
  induction 1 as [|t l Ht _ (rs & Hrs & Hl)]; [by exists []|].
  destruct (from_attributes_keyed t Ht) as (r & Hr & Hrt).
  exists (r :: rs). cbn. rewrite Hr, Hrs. cbn. by rewrite Hrt, Hl.
Qed.

Lemma TaskListResponse_init_keyed l :
  Forall (fun r => is_Some (Task.id r)) l ->
  exists rs,
    TaskListResponse.init l (Z.of_nat (length l))
      = Some (TaskListResponse.new rs (Z.of_nat (length rs))) /\
    as_task <$> rs = l.
Proof.
  intros Hl. destruct (mapM_from_attributes l Hl) as (rs & Hrs & Hrl).
  exists rs. unfold TaskListResponse.init. rewrite Hrs.
  split; [|done]. by rewrite <- Hrl, length_fmap.
Qed.

Lemma encode_task_keyed t k :
  Task.id t = Some k ->
  exists r, encode_task t = Some (TaskBody r) /\ as_task r = t
            /\ TaskResponse.id r = k.
Proof.
  intros Hk. unfold encode_task, TaskResponse.from_attributes. rewrite Hk.
  eexists. split; [reflexivity|]. split; [|reflexivity].
  destruct t. cbn in *. by subst.
Qed.

(** The answer to [GET /tasks/{task_id}], by cases on the table. *)
Lemma serve_GET_task w task_id :
  match find_row task_id (rows (database w)) with
  | Some t =>
      exists r,
        serve (GET_task task_id) w = ({| code := 200; body := TaskBody r |}, w)
        /\ as_task r = t
  | None =>
      serve (GET_task task_id) w = ({| code := 404; body := ErrorBody |}, w)
  end.
Proof.
  unfold serve, get_task, get_task_by_id, Session.get, mbind, M_bind.
  cbn [Request_valid negb].
  destruct (find_row task_id (rows (database w))) as [t|] eqn:Hget;
    [|reflexivity].
  destruct (find_row_Some _ _ _ Hget) as [_ Hid].
  destruct (encode_task_keyed t task_id Hid) as (r & Hr & Hrt & _).
  exists r. unfold mret, M_ret, respond. by rewrite Hr.
Qed.

(** X9: a valid [POST /tasks] on a well-formed table is answered 201
    with the stored task, whose fields are those of the body (the
    status "pending" when the body has none); a [GET] of the id in the
    answer then returns the same task with 200. *)
Theorem POST_then_GET_returns_the_task w title description status :
  Database_ok (database w) ->
  TaskCreate.valid (TaskCreate.parse title description status) = true ->
  exists r w',
    serve (POST_tasks (TaskCreate.parse title description status)) w
      = ({| code := 201; body := TaskBody r |}, w') /\
    TaskResponse.title r = title /\
    TaskResponse.description r = description /\
    TaskResponse.status r = default "pending"%string status /\
    serve (GET_task (TaskResponse.id r)) w'
      = ({| code := 200; body := TaskBody r |}, w').
Proof.
  intros Hdb Hvalid. unfold serve at 1. cbn [Request_valid].
  rewrite Hvalid. cbn [negb].
  unfold create_new_task, mbind, M_bind.
  rewrite (create_task_inserts _ _ _ _ Hdb). cbn zeta.
  unfold mret, M_ret, respond, encode_task, TaskResponse.from_attributes.
  cbn [Task.id fmap option_fmap option_map].
  eexists _, _. split; [reflexivity|].
  cbn [TaskResponse.title TaskResponse.description TaskResponse.status
       TaskResponse.id TaskCreate.parse TaskCreate.title
       TaskCreate.description TaskCreate.status].
  do 3 (split; [reflexivity|]).
  match goal with |- serve (GET_task ?k) ?w1 = _ =>
    pose proof (serve_GET_task w1 k) as Hserve end.
  cbn [database rows] in Hserve.
  rewrite find_row_app, (Database_ok_fresh _ Hdb), find_row_cons in Hserve.
  cbn [Task.id] in Hserve. rewrite decide_True in Hserve by done.
  destruct Hserve as (r & -> & Hr). do 2 f_equal.
  destruct r. cbn in Hr. by injection Hr as -> -> -> -> -> ->.
Qed.

Lemma POST_then_GET_returns_the_task_witness :
  Database_ok (database three_task_world) /\
  TaskCreate.valid (TaskCreate.parse "D" None None) = true /\
  exists r w',
    serve (POST_tasks (TaskCreate.parse "D" None None)) three_task_world
      = ({| code := 201; body := TaskBody r |}, w') /\
    TaskResponse.title r = "D"%string /\
    TaskResponse.description r = None /\
    TaskResponse.status r = default "pending"%string None /\
    serve (GET_task (TaskResponse.id r)) w'
      = ({| code := 200; body := TaskBody r |}, w').
Proof.
  assert (H : TaskCreate.valid (TaskCreate.parse "D" None None) = true)
    by reflexivity.
  split; [exact three_task_world_ok|]. split; [exact H|].
  exact (POST_then_GET_returns_the_task three_task_world "D" None None
           three_task_world_ok H).
Defined.

(** X10: [DELETE /tasks/{task_id}] on a well-formed table, for an id
    the driver accepts.  For a stored id the answer is 200 with
    [deleted_count = 1], the table has exactly one row less, and a
    [GET] of the id is then answered 404; for an id that is not stored
    the answer is 404 and nothing changes. *)
Theorem DELETE_task_reports_the_row_removed w task_id :
  Database_ok (database w) ->
  int64 task_id ->
  match find_row task_id (rows (database w)) with
  | Some _ =>
      exists w',
        serve (DELETE_task task_id) w
          = ({| code := 200;
                body := DeleteBody
                          (DeleteResponse.new
                             ("Task " +:+ pretty task_id
                              +:+ " deleted successfully") 1) |}, w') /\
        Z.of_nat (length (rows (database w)))
          - Z.of_nat (length (rows (database w'))) = 1 /\
        serve (GET_task task_id) w'
          = ({| code := 404; body := ErrorBody |}, w')
  | None =>
      serve (DELETE_task task_id) w
        = ({| code := 404; body := ErrorBody |}, w)
  end.
Proof.
  intros [_ Hord] _. unfold serve at 1 3, delete_single_task, mbind, M_bind.
  cbn [Request_valid negb]. rewrite delete_task_outcome.
  destruct (find_row task_id (rows (database w))) as [t|] eqn:Hget;
    [|reflexivity].
  eexists. split; [reflexivity|]. unfold with_database.
  cbn [database rows]. split.
  - pose proof (length_delete_one _ task_id Hord) as Hlen.
    rewrite Hget in Hlen. specialize (Hlen (mk_is_Some _ _ eq_refl)). lia.
  - match goal with |- serve (GET_task ?k) ?w1 = _ =>
      pose proof (serve_GET_task w1 k) as Hserve end.
    cbn [database rows] in Hserve. by rewrite find_row_delete in Hserve.
Qed.

Lemma DELETE_task_reports_the_row_removed_witness :
  Database_ok (database three_task_world) /\
  int64 2 /\
  match find_row 2 (rows (database three_task_world)) with
  | Some _ =>
      exists w',
        serve (DELETE_task 2) three_task_world
          = ({| code := 200;
                body := DeleteBody
                          (DeleteResponse.new
                             ("Task " +:+ pretty 2
                              +:+ " deleted successfully") 1) |}, w') /\
        Z.of_nat (length (rows (database three_task_world)))
          - Z.of_nat (length (rows (database w'))) = 1 /\
        serve (GET_task 2) w' = ({| code := 404; body := ErrorBody |}, w')
  | None =>
      serve (DELETE_task 2) three_task_world
        = ({| code := 404; body := ErrorBody |}, three_task_world)
  end.
Proof.
  assert (H0 : int64 2) by (unfold int64; lia).
  split; [exact three_task_world_ok|]. split; [exact H0|].
  exact (DELETE_task_reports_the_row_removed three_task_world 2
           three_task_world_ok H0).
Defined.

(** The message of the witness above, computed. *)
Example DELETE_task_message :
  ("Task " +:+ pretty 2 +:+ " deleted successfully")%string
  = "Task 2 deleted successfully"%string.
Proof. reflexivity. Qed.

(** X11: [GET /tasks] with a valid query (and a [skip] the driver
    accepts) on a table whose rows carry their keys is answered 200, changes nothing, and reports as [total]
    the number of tasks in the answer.  Without a [status] parameter,
    or with an empty one, the tasks are the page of the listing (at
    most [limit] of them); with a non-empty [status] they are all the
    tasks with that status, and [skip] and [limit] play no part. *)
Theorem GET_tasks_filters_or_pages w status skip limit :
  Forall (fun r => is_Some (Task.id r)) (rows (database w)) ->
  0 <= skip ->
  int64 skip ->
  1 <= limit <= 1000 ->
  exists l,
    serve (GET_tasks status skip limit) w
      = ({| code := 200; body := TaskListBody l |}, w) /\
    TaskListResponse.total l
      = Z.of_nat (length (TaskListResponse.tasks l)) /\
    as_task <$> TaskListResponse.tasks l =
      match status with
      | Some (String a s) =>
          filter (fun r => Task.status r = String a s) (rows (database w))
      | _ => take (Z.to_nat limit) (drop (Z.to_nat skip) (rows (database w)))
      end /\
    (truthy status = false -> TaskListResponse.total l <= limit).
Proof.
  intros Hkeys Hskip _ Hlimit. unfold serve. cbn [Request_valid].
  rewrite !bool_decide_eq_true_2 by done. cbn [andb negb].
  unfold get_tasks, mbind, M_bind.
  assert (Hpage :
    exists tasks,
      (if truthy status
       then get_tasks_by_status (default EmptyString status)
       else get_all_tasks skip limit) w = Return tasks w /\
      Forall (fun r => is_Some (Task.id r)) tasks /\
      tasks =
        match status with
        | Some (String a s) =>
            filter (fun r => Task.status r = String a s) (rows (database w))
        | _ => take (Z.to_nat limit) (drop (Z.to_nat skip) (rows (database w)))
        end /\
      (truthy status = false -> Z.of_nat (length tasks) <= limit)).
  { destruct status as [[|a s]|]; cbn [truthy default];
      rewrite ?bool_decide_eq_true_2 by done;
      rewrite ?bool_decide_eq_false_2 by done; cbn [negb].
    1,3: eexists; split; [apply get_all_tasks_slice; lia|];
         split; [by apply Forall_take, Forall_drop|]; split; [done|];
         intros _; rewrite length_take; lia.
    eexists. split; [apply get_tasks_by_status_filter|].
    split; [|split; [done | discriminate]].
    rewrite Forall_forall in *. intros r Hr.
    apply list_elem_of_filter in Hr as [_ Hr]. auto. }
  destruct Hpage as (tasks & -> & Htasks & Heq & Hle).
  destruct (TaskListResponse_init_keyed tasks Htasks) as (rs & Hrs & Hrl).
  unfold mret, M_ret, respond. rewrite Hrs. cbn [fmap option_fmap option_map].
  eexists. split; [reflexivity|].
  cbn [TaskListResponse.total TaskListResponse.tasks].
  split; [done|]. split; [by rewrite Hrl|].
  intros Hf. specialize (Hle Hf). rewrite <- Hrl, length_fmap in Hle. lia.
Qed.

Lemma GET_tasks_filters_or_pages_witness :
  Forall (fun r => is_Some (Task.id r)) (rows (database three_task_world)) /\
  0 <= 0 /\
  int64 0 /\
  1 <= 1 <= 1000 /\
  exists l,
    serve (GET_tasks (Some "pending"%string) 0 1) three_task_world
      = ({| code := 200; body := TaskListBody l |}, three_task_world) /\
    TaskListResponse.total l
      = Z.of_nat (length (TaskListResponse.tasks l)) /\
    as_task <$> TaskListResponse.tasks l =
      filter (fun r => Task.status r = "pending"%string)
        (rows (database three_task_world)) /\
    (truthy (Some "pending"%string) = false ->
       TaskListResponse.total l <= 1).
Proof.
  assert (H0 : 0 <= 0) by lia. assert (H1 : 1 <= 1 <= 1000) by lia.
  assert (Hr : int64 0) by (unfold int64; lia).
  split; [exact (keyed_of_Database_ok _ three_task_world_ok)|].
  split; [exact H0|]. split; [exact Hr|]. split; [exact H1|].
  exact (GET_tasks_filters_or_pages three_task_world (Some "pending"%string)
           0 1 (keyed_of_Database_ok _ three_task_world_ok) H0 Hr H1).
Defined.

(** With [limit = 1] and the filter "pending", the answer above holds
    both pending tasks: the filter is not paged. *)
Example GET_tasks_filter_exceeds_limit :
  exists l,
    serve (GET_tasks (Some "pending"%string) 0 1) three_task_world
      = ({| code := 200; body := TaskListBody l |}, three_task_world) /\
    TaskListResponse.total l = 2.
Proof. eexists. split; reflexivity. Qed.

(** ** The routes, one equation each *)

Lemma serve_invalid r w :
  Request_valid r = false ->
  serve r w = ({| code := 422; body := ErrorBody |}, w).
Proof. intros H. unfold serve. by rewrite H. Qed.

Lemma serve_POST_tasks w d :
  Database_ok (database w) -> TaskCreate.valid d = true ->
  exists r,
    as_task r =
      Task.new (Some (sequence (database w))) (TaskCreate.title d)
        (TaskCreate.description d) (TaskCreate.status d)
        (clock w (ticks w)) (clock w (S (ticks w))) /\
    serve (POST_tasks d) w =
      ({| code := 201; body := TaskBody r |},
       {| database := {| rows := rows (database w) ++ [as_task r];
                         sequence := sequence (database w) + 1 |};
          clock := clock w;
          ticks := S (S (ticks w)) |}).
Proof.
  intros Hdb Hvalid. unfold serve. cbn [Request_valid].
  rewrite Hvalid. cbn [negb]. unfold create_new_task, mbind, M_bind.
  rewrite (create_task_inserts _ _ _ _ Hdb). cbn zeta.
  unfold mret, M_ret, respond, encode_task, TaskResponse.from_attributes.
  cbn [Task.id fmap option_fmap option_map].
  exists (TaskResponse.new (sequence (database w)) (TaskCreate.title d)
            (TaskCreate.description d) (TaskCreate.status d)
            (clock w (ticks w)) (clock w (S (ticks w)))).
  split; reflexivity.
Qed.

Lemma serve_PUT_task_rejected w task_id d :
  TaskUpdate_valid d = true ->
  any [truthy (upd_title d); truthy (upd_description d);
       truthy (upd_status d)] = false ->
  serve (PUT_task task_id d) w = ({| code := 400; body := ErrorBody |}, w).
Proof.
  intros Hvalid Hany. unfold serve, update_existing_task.
  cbn [Request_valid]. by rewrite Hvalid, Hany.
Qed.

Lemma serve_PUT_task_missing w task_id d :
  TaskUpdate_valid d = true ->
  any [truthy (upd_title d); truthy (upd_description d);
       truthy (upd_status d)] = true ->
  find_row task_id (rows (database w)) = None ->
  serve (PUT_task task_id d) w = ({| code := 404; body := ErrorBody |}, w).
Proof.
  intros Hvalid Hany Hget. unfold serve, update_existing_task.
  cbn [Request_valid]. rewrite Hvalid, Hany. cbn [negb].
  unfold mbind, M_bind. by rewrite (update_task_missing _ _ _ _ _ Hget).
Qed.

Lemma serve_PUT_task_found w task_id d t :
  TaskUpdate_valid d = true ->
  any [truthy (upd_title d); truthy (upd_description d);
       truthy (upd_status d)] = true ->
  find_row task_id (rows (database w)) = Some t ->
  exists r,
    as_task r = updated_row (upd_title d) (upd_description d) (upd_status d)
                  (clock w (ticks w)) t /\
    serve (PUT_task task_id d) w =
      ({| code := 200; body := TaskBody r |},
       {| database :=
            {| rows := Session.overwrite task_id (as_task r)
                         <$> rows (database w);
               sequence := sequence (database w) |};
          clock := clock w;
          ticks := S (ticks w) |}).
Proof.
  intros Hvalid Hany Hget. unfold serve, update_existing_task.
  cbn [Request_valid]. rewrite Hvalid, Hany. cbn [negb].
  unfold mbind, M_bind. rewrite (update_task_found _ _ _ _ _ _ Hget).
  cbn zeta.
  destruct (encode_task_keyed
              (updated_row (upd_title d) (upd_description d) (upd_status d)
                 (clock w (ticks w)) t) task_id) as (r & Hr & Hrt & _).
  { rewrite updated_row_id. by destruct (find_row_Some _ _ _ Hget). }
  exists r. split; [exact Hrt|].
  unfold mret, M_ret, respond. by rewrite Hr, Hrt.
Qed.

Lemma serve_DELETE_task w task_id :
  serve (DELETE_task task_id) w =
  match find_row task_id (rows (database w)) with
  | Some _ =>
      ({| code := 200;
          body := DeleteBody
                    (DeleteResponse.new
                       ("Task " +:+ pretty task_id
                        +:+ " deleted successfully") 1) |},
       {| database :=
            {| rows := filter (fun r => Task.id r <> Some task_id)
                         (rows (database w));
               sequence := sequence (database w) |};
          clock := clock w;
          ticks := ticks w |})
  | None => ({| code := 404; body := ErrorBody |}, w)
  end.
Proof.
  unfold serve, delete_single_task, mbind, M_bind.
  cbn [Request_valid negb]. rewrite delete_task_outcome.
  by destruct (find_row task_id (rows (database w))).
Qed.

Lemma serve_DELETE_tasks w :
  Forall (fun r => is_Some (Task.id r)) (rows (database w)) ->
  serve DELETE_tasks w =
  ({| code := 200;
      body := DeleteBody
                (DeleteResponse.new "All tasks deleted successfully"
                   (Z.of_nat (length (rows (database w))))) |},
   {| database := {| rows := []; sequence := sequence (database w) |};
      clock := clock w;
      ticks := ticks w |}).
Proof.
  intros Hkeys. unfold serve, delete_all, mbind, M_bind.
  cbn [Request_valid negb].
  by rewrite (delete_all_tasks_outcome _ Hkeys).
Qed.

Lemma serve_GET_tasks w status skip limit :
  Forall (fun r => is_Some (Task.id r)) (rows (database w)) ->
  0 <= skip -> 1 <= limit <= 1000 ->
  exists l,
    serve (GET_tasks status skip limit) w
      = ({| code := 200; body := TaskListBody l |}, w).
Proof.
  intros Hkeys Hskip Hlimit. unfold serve. cbn [Request_valid].
  rewrite !bool_decide_eq_true_2 by done. cbn [andb negb].
  unfold get_tasks, mbind, M_bind.
  assert (Hpage : exists tasks,
    (if truthy status
     then get_tasks_by_status (default EmptyString status)
     else get_all_tasks skip limit) w = Return tasks w /\
    Forall (fun r => is_Some (Task.id r)) tasks).
  { destruct (truthy status).
    - eexists. split; [apply get_tasks_by_status_filter|].
      rewrite Forall_forall in *. intros r Hr.
      apply list_elem_of_filter in Hr as [_ Hr]. auto.
    - eexists. split; [apply get_all_tasks_slice; lia|].
      by apply Forall_take, Forall_drop. }
  destruct Hpage as (tasks & -> & Htasks).
  destruct (TaskListResponse_init_keyed tasks Htasks) as (rs & Hrs & _).
  unfold mret, M_ret, respond. rewrite Hrs. by eexists.
Qed.

(** X12: the answers of [PUT /tasks/{task_id}] for an id the driver
    accepts, case by case: 422 when
    the body violates its schema; otherwise 400 when no field of the
    body is a non-empty string; otherwise 404 when the id is not
    stored; otherwise 200 with the task as [update_task] returns it.
    Only the answer 200 changes the store. *)
Theorem PUT_task_answers w task_id d :
  int64 task_id ->
  if TaskUpdate_valid d then
    if any [truthy (upd_title d); truthy (upd_description d);
            truthy (upd_status d)] then
      match find_row task_id (rows (database w)) with
      | Some t =>
          exists r w',
            serve (PUT_task task_id d) w
              = ({| code := 200; body := TaskBody r |}, w') /\
            update_task task_id (upd_title d) (upd_description d)
              (upd_status d) w = Return (Some (as_task r)) w' /\
            serve (GET_task task_id) w'
              = ({| code := 200; body := TaskBody r |}, w')
      | None =>
          serve (PUT_task task_id d) w
            = ({| code := 404; body := ErrorBody |}, w)
      end
    else
      serve (PUT_task task_id d) w = ({| code := 400; body := ErrorBody |}, w)
  else
    serve (PUT_task task_id d) w = ({| code := 422; body := ErrorBody |}, w).
Proof.
  intros _.
  destruct (TaskUpdate_valid d) eqn:Hvalid; [|by apply serve_invalid].
  destruct (any _) eqn:Hany; [|by apply serve_PUT_task_rejected].
  destruct (find_row task_id (rows (database w))) as [t|] eqn:Hget;
    [|by apply serve_PUT_task_missing].
  destruct (serve_PUT_task_found w task_id d t Hvalid Hany Hget)
    as (r & Hr & Hserve).
  eexists _, _. split; [exact Hserve|].
  pose proof (update_task_found w task_id (upd_title d) (upd_description d)
                (upd_status d) t Hget) as Hrun.
  cbn zeta in Hrun. rewrite <- Hr in Hrun. split; [exact Hrun|].
  pose proof (update_task_found_get _ _ _ _ _ _ _ _ Hget Hrun) as [= Hget'].
  match goal with |- serve (GET_task ?k) ?w1 = _ =>
    pose proof (serve_GET_task w1 k) as Hs end.
  cbn [database rows] in Hs, Hget'. rewrite Hget' in Hs.
  destruct Hs as (r' & -> & Hr'). do 2 f_equal.
  destruct r, r'. cbn in Hr'. by injection Hr' as -> -> -> -> -> ->.
Qed.

Lemma PUT_task_answers_witness :
  int64 1 /\
  exists r w',
    serve (PUT_task 1 mark_done) one_task_world
      = ({| code := 200; body := TaskBody r |}, w') /\
    update_task 1 (upd_title mark_done) (upd_description mark_done)
      (upd_status mark_done) one_task_world = Return (Some (as_task r)) w' /\
    serve (GET_task 1) w' = ({| code := 200; body := TaskBody r |}, w').
Proof.
  assert (H0 : int64 1) by (unfold int64; lia).
  split; [exact H0|].
  exact (PUT_task_answers one_task_world 1 mark_done H0).
Defined.

(** X13: [DELETE /tasks] on a table whose rows carry their keys is
    answered 200 with [deleted_count] the number of tasks stored before
    the request, and every valid [GET /tasks] that follows (with a
    [skip] the driver accepts) is answered with no task and
    [total = 0]. *)
Theorem DELETE_tasks_then_GET_tasks_is_empty w :
  Forall (fun r => is_Some (Task.id r)) (rows (database w)) ->
  exists w',
    serve DELETE_tasks w
      = ({| code := 200;
            body := DeleteBody
                      (DeleteResponse.new "All tasks deleted successfully"
                         (Z.of_nat (length (rows (database w))))) |}, w') /\
    forall status skip limit,
      0 <= skip -> int64 skip -> 1 <= limit <= 1000 ->
      serve (GET_tasks status skip limit) w'
        = ({| code := 200;
              body := TaskListBody (TaskListResponse.new [] 0) |}, w').
Proof.
  intros Hkeys. eexists. split; [by apply serve_DELETE_tasks|].
  intros status skip limit Hskip _ Hlimit. unfold serve. cbn [Request_valid].
  rewrite !bool_decide_eq_true_2 by done. cbn [andb negb].
  unfold get_tasks, mbind, M_bind.
  destruct (truthy status).
  - by rewrite get_tasks_by_status_filter.
  - rewrite get_all_tasks_slice by lia. cbn [database rows].
    by rewrite drop_nil, take_nil.
Qed.

Lemma DELETE_tasks_then_GET_tasks_is_empty_witness :
  Forall (fun r => is_Some (Task.id r)) (rows (database three_task_world)) /\
  exists w',
    serve DELETE_tasks three_task_world
      = ({| code := 200;
            body := DeleteBody
                      (DeleteResponse.new "All tasks deleted successfully"
                         3) |}, w') /\
    forall status skip limit,
      0 <= skip -> int64 skip -> 1 <= limit <= 1000 ->
      serve (GET_tasks status skip limit) w'
        = ({| code := 200;
              body := TaskListBody (TaskListResponse.new [] 0) |}, w').
Proof.
  split; [exact (keyed_of_Database_ok _ three_task_world_ok)|].
  exact (DELETE_tasks_then_GET_tasks_is_empty three_task_world
           (keyed_of_Database_ok _ three_task_world_ok)).
Defined.

(** ** Sessions of requests *)

Lemma within_schema_created d k c u :
  TaskCreate.valid d = true ->
  within_schema (Task.new k (TaskCreate.title d) (TaskCreate.description d)
                   (TaskCreate.status d) c u).
Proof.
  unfold TaskCreate.valid. rewrite !andb_true_iff.
  intros [[Ht Hd] Hs]. apply bool_decide_eq_true in Ht, Hs.
  split; [exact Ht|]. split; [|exact Hs]. cbn.
  destruct (TaskCreate.description d); [|done].
  by apply bool_decide_eq_true in Hd.
Qed.

Lemma within_schema_updated d now t :
  TaskUpdate_valid d = true -> within_schema t ->
  within_schema (updated_row (upd_title d) (upd_description d)
                   (upd_status d) now t).
Proof.
  unfold TaskUpdate_valid. rewrite !andb_true_iff.
  intros [[Ht Hd] Hs] (Ht0 & Hd0 & Hs0). unfold within_schema.
  autorewrite with updated_row.
  destruct (upd_title d), (upd_description d), (upd_status d); cbn;
    repeat match goal with
           | H : bool_decide _ = true |- _ => apply bool_decide_eq_true in H
           end;
    done.
Qed.

(** One request keeps the table well formed and within the schema
    bounds, and is answered with one of the intended codes. *)
Lemma serve_step r w :
  Database_ok (database w) ->
  Forall within_schema (rows (database w)) ->
  Database_ok (database (serve r w).2) /\
  Forall within_schema (rows (database (serve r w).2)) /\
  expected_code (code (serve r w).1).
Proof.
  intros Hdb Hsch. unfold expected_code.
  destruct (Request_valid r) eqn:Hvalid;
    [|rewrite (serve_invalid _ _ Hvalid); cbn; auto 10].
  destruct r as [|status skip limit|k|d|k d|k|]; cbn [Request_valid] in Hvalid.
  - cbn. auto 10.
  - apply andb_true_iff in Hvalid as [H1 H2].
    apply bool_decide_eq_true in H1, H2.
    destruct (serve_GET_tasks w status skip limit
                (keyed_of_Database_ok _ Hdb) H1 H2) as (l & ->).
    cbn. auto 10.
  - pose proof (serve_GET_task w k) as Hs.
    destruct (find_row k (rows (database w))).
    + destruct Hs as (r & -> & _). cbn. auto 10.
    + rewrite Hs. cbn. auto 10.
  - destruct (serve_POST_tasks w d Hdb Hvalid) as (r & Hr & ->).
    cbn [fst snd database rows code]. split; [|split; [|auto 10]].
    + apply Database_ok_insert; [done|]. by rewrite Hr.
    + apply Forall_app. split; [done|]. apply Forall_singleton.
      rewrite Hr. by apply within_schema_created.
  - destruct (any [truthy (upd_title d); truthy (upd_description d);
                   truthy (upd_status d)]) eqn:Hany.
    2: { rewrite (serve_PUT_task_rejected _ _ _ Hvalid Hany). cbn. auto 10. }
    destruct (find_row k (rows (database w))) as [t|] eqn:Hget.
    2: { rewrite (serve_PUT_task_missing _ _ _ Hvalid Hany Hget).
         cbn. auto 10. }
    destruct (serve_PUT_task_found w k d t Hvalid Hany Hget) as (r & Hr & ->).
    destruct (find_row_Some _ _ _ Hget) as [Hin Hid].
    cbn [fst snd database rows code]. split; [|split; [|auto 10]].
    + apply Database_ok_overwrite; [done|].
      by rewrite Hr, updated_row_id.
    + apply Forall_fmap. rewrite Forall_forall in *. intros s Hs. cbn.
      unfold Session.overwrite. destruct (decide (Task.id s = Some k)); auto.
      rewrite Hr. apply within_schema_updated; auto.
  - rewrite serve_DELETE_task.
    destruct (find_row k (rows (database w))); cbn; [|auto 10].
    split; [by apply Database_ok_filter|]. split; [|auto 10].
    rewrite Forall_forall in *. intros s Hs.
    apply list_elem_of_filter in Hs as [_ Hs]. auto.
  - rewrite (serve_DELETE_tasks _ (keyed_of_Database_ok _ Hdb)). cbn.
    split; [split; constructor|]. split; [constructor | auto 10].
Qed.

(** X14: whatever requests are served, in whatever order, starting from
    the empty table, as long as their integers are ones the driver
    accepts: every answer has one of the codes 200, 201, 400, 404, 422,
    and every stored task keeps within the bounds of the body schemas:
    a title of 1 to 200 characters, a description of at most 1000 and a
    status of at most 20. *)
Theorem requests_keep_schema_bounds c rs :
  Forall Request_in_range rs ->
  Forall within_schema (rows (database (serve_all rs (boot c)).2)) /\
  Forall (fun a => expected_code (code a)) (serve_all rs (boot c)).1 /\
  length (serve_all rs (boot c)).1 = length rs.
Proof.
  intros _.
  assert (H : forall w,
    Database_ok (database w) -> Forall within_schema (rows (database w)) ->
    Forall within_schema (rows (database (serve_all rs w).2)) /\
    Forall (fun a => expected_code (code a)) (serve_all rs w).1 /\
    length (serve_all rs w).1 = length rs).
  { induction rs as [|r rs IH]; intros w Hdb Hsch; [by cbn|].
    cbn [serve_all].
    destruct (serve_step r w Hdb Hsch) as (Hdb1 & Hsch1 & Hcode).
    destruct (serve r w) as [a w1]. cbn [fst snd] in *.
    destruct (IH w1 Hdb1 Hsch1) as (Hsch2 & Hcodes & Hlen).
    destruct (serve_all rs w1) as [l w2]. cbn [fst snd] in *.
    split; [done|]. split; [by constructor | cbn; by rewrite Hlen]. }
  apply H; [exact empty_database_ok | constructor].
Qed.

Lemma sample_session_in_range : Forall Request_in_range sample_session.
Proof.
  unfold sample_session.
  repeat (apply Forall_cons; split); try apply Forall_nil;
    cbn; unfold int64; try split; lia || exact I.
Qed.

Lemma requests_keep_schema_bounds_witness :
  Forall Request_in_range sample_session /\
  Forall within_schema
    (rows (database (serve_all sample_session (boot steady_clock)).2)) /\
  Forall (fun a => expected_code (code a))
    (serve_all sample_session (boot steady_clock)).1 /\
  length (serve_all sample_session (boot steady_clock)).1
    = length sample_session.
Proof.
  split; [exact sample_session_in_range|].
  exact (requests_keep_schema_bounds steady_clock sample_session
           sample_session_in_range).
Defined.

(** The answers of the sample session. *)
Example sample_session_codes :
  code <$> (serve_all sample_session (boot steady_clock)).1
  = [201; 200; 200; 200].
Proof. reflexivity. Qed.
